(** * Request body parsing of @loopback/rest (packages/rest/src/body-parser.ts)

    A shallow embedding of [RequestBodyParser]: the option resolver
    [getParserOptions], the constructor that builds the parser registry, the
    error normalizer and the orchestrator [loadRequestBodyIfNeeded].

    JavaScript objects are finite maps from property names to values; the
    mutation of the request by a parser and the order of the calls made by the
    orchestrator are threaded through an explicit state. *)

From stdpp Require Import base option strings list gmap fin_maps.
From Stdlib Require Import ZArith Lia.

Local Open Scope Z_scope.

(** ** JavaScript values and objects *)

Module Js.

(** The values that option objects, schemas and parsed bodies are made of.
    An object is the finite map of its own enumerable properties: a key
    that is present with value [undefined] is a binding to [VUndefined],
    an absent key is no binding. *)
#[local] Set Warnings "-register-all".
Inductive JsVal : Type :=
| VUndefined
| VNull
| VBool (b : bool)
| VNum (n : Z)
| VStr (s : string)
| VObj (props : gmap string JsVal).

Abbreviation JsObj := (gmap string JsVal).

(** [o[k]]: reading a property that is absent yields [undefined]. *)
Definition get (o : JsObj) (k : string) : JsVal := default VUndefined (o !! k).

(** One step of [Object.assign]: the own properties of [source] are copied
    over [target]. A source that is [undefined] or [null] is skipped, and a
    number or a boolean has no own enumerable property. The sources of this
    file are typed as objects or [undefined]. *)
Definition assign1 (target : JsObj) (source : JsVal) : JsObj :=
  match source with
  | VObj props => props ∪ target
  | _ => target
  end.

(** [Object.assign(target, ...sources)]: sources are applied left to
    right, so a later source overwrites an earlier one. *)
Definition assign (target : JsObj) (sources : list JsVal) : JsObj :=
  foldl assign1 target sources.

(** [!!s] for a string: the empty string is falsy. *)
Definition truthy_string (s : string) : bool :=
  match s with
  | EmptyString => false
  | String _ _ => true
  end.

End Js.

Import Js.

(** ** Option resolver *)

(** [const DEFAULT_LIMIT = '1mb'] *)
Definition DEFAULT_LIMIT : string := "1mb".

(** The three format names, also the keys deleted from the merged options. *)
Inductive ParserType : Type := TJson | TUrlencoded | TText.

Definition type_key (t : ParserType) : string :=
  match t with
  | TJson => "json"
  | TUrlencoded => "urlencoded"
  | TText => "text"
  end.

(** [getParserOptions(type, options)]:
    [Object.assign(opts, options[type], options)] on a fresh [opts], then
    [delete opts[k]] for [k] in [['json', 'urlencoded', 'text']]. *)
Definition getParserOptions (type : ParserType) (options : JsObj) : JsObj :=
  let opts : JsObj := ∅ in
  let opts := assign opts [get options (type_key type); VObj options] in
  foldl (fun o k => delete k o) opts ["json"; "urlencoded"; "text"].

(** The hard-coded defaults of the constructor, first argument of its three
    [Object.assign] calls. *)
Definition default_options (t : ParserType) : JsObj :=
  match t with
  | TJson =>
      {[ "type" := VStr "json"; "limit" := VStr DEFAULT_LIMIT ]}
  | TUrlencoded =>
      {[ "type" := VStr "urlencoded"; "extended" := VBool true;
         "limit" := VStr DEFAULT_LIMIT ]}
  | TText =>
      {[ "type" := VStr "text/*"; "limit" := VStr DEFAULT_LIMIT ]}
  end.

(** [jsonOptions], [urlencodedOptions] and [textOptions] of the constructor:
    [Object.assign(<defaults>, getParserOptions(<format>, options))]. *)
Definition effective_options (t : ParserType) (options : JsObj) : JsObj :=
  assign (default_options t) [VObj (getParserOptions t options)].

(** The keys that [getParserOptions] deletes. *)
Definition is_format_key (k : string) : bool :=
  bool_decide (k = "json" ∨ k = "urlencoded" ∨ k = "text").

(** ** Errors and completions *)

(** A thrown JavaScript error object. [statusCode] is [None] when the
    property is absent ([undefined]): a plain [Error] has none, an
    [HttpError] of http-errors carries one. Status codes are integers. *)
Record JsError : Type := mkError {
  name : string;
  message : string;
  statusCode : option Z;
}.

(** [new Error(message)] *)
Definition Error (msg : string) : JsError :=
  {| name := "Error"; message := msg; statusCode := None |}.

(** [new HttpErrors.UnsupportedMediaType(message)]: the constructor that
    http-errors exports for status 415. *)
Definition UnsupportedMediaType (msg : string) : JsError :=
  {| name := "UnsupportedMediaTypeError"; message := msg;
     statusCode := Some 415 |}.

(** How a call, or an awaited promise, completes. *)
Inductive Completion (A : Type) : Type :=
| Returned (a : A)
| Thrown (e : JsError).
Arguments Returned {A} a.
Arguments Thrown {A} e.

(** [!err.statusCode]: an absent status code and [0] are falsy. *)
Definition statusCode_falsy (c : option Z) : bool :=
  match c with
  | None => true
  | Some n => n =? 0
  end.

(** [err.statusCode >= 500]; the comparison with [undefined] is false. *)
Definition statusCode_ge_500 (c : option Z) : bool :=
  match c with
  | None => false
  | Some n => 500 <=? n
  end.

(** [normalizeParsingError(err)], the function and the private method of the
    same body: [if (!err.statusCode || err.statusCode >= 500)
    err.statusCode = 400; return err]. *)
Definition normalizeParsingError (err : JsError) : JsError :=
  if statusCode_falsy (statusCode err) || statusCode_ge_500 (statusCode err)
  then {| name := name err; message := message err; statusCode := Some 400 |}
  else err.

(** ** Requests, operation specs, parser entries *)

(** The request: its headers (keys in lower case, as [req.get] finds them),
    the raw payload still to be read, and [request.body], which the
    underlying parsers assign. *)
Record Request : Type := mkRequest {
  headers : gmap string string;
  payload : string;
  body : JsVal;
}.

(** [getContentType(req)]: [req.get('content-type')]. *)
Definition getContentType (req : Request) : option string :=
  headers req !! "content-type".

(** [x || d] for [x : string | undefined]. *)
Definition or_string (x : option string) (d : string) : string :=
  match x with
  | Some s => if truthy_string s then s else d
  | None => d
  end.

(** Express body parser function type, [BodyParserWithCallback]: the handle
    reads the request, may assign [request.body], and calls back with an
    error or with none. *)
Definition BodyParserWithCallback : Type := Request → option JsError * Request.

(** [parse(handle, request)]: the promise is rejected with the normalized
    error when the callback receives one, resolved otherwise. *)
Definition parse (handle : BodyParserWithCallback) (request : Request)
  : Completion unit * Request :=
  let '(err, request) := handle request in
  match err with
  | Some err => (Thrown (normalizeParsingError err), request)
  | None => (Returned tt, request)
  end.

(** The [BodyParser] interface. [supports] may throw; [parse] returns a
    promise, settled here as a completion, and may mutate the request. *)
Record BodyParser : Type := mkBodyParser {
  parser_name : option string;
  supports : string → Completion bool;
  parser_parse : Request → Completion JsObj * Request;
}.

(** One entry of a [content] map. *)
Record MediaTypeObject : Type := mkMediaType {
  schema : option JsVal;
}.

(** A [content] object, as the list of its entries in the order in which
    [for ... in] and [Object.keys] enumerate them. *)
Definition Content : Type := list (string * MediaTypeObject).

(** [operationSpec.requestBody] when present: a [ReferenceObject] or a
    [RequestBodyObject], told apart by [isReferenceObject]. *)
Inductive RequestBodySpec : Type :=
| ReferenceObject (ref : string)
| RequestBodyObject (content : option Content).

Record OperationObject : Type := mkOperation {
  operation_requestBody : option RequestBodySpec;
}.

(** ** Instrumentation: the calls made by the orchestrator, in order *)

Inductive Event : Type :=
| EvMatch (contentType type : string)
| EvSupports (index : nat) (mediaType : string)
| EvParse (index : nat).

Record State : Type := mkState {
  st_request : Request;
  st_trace : list Event;
}.

Definition log (ev : Event) (st : State) : State :=
  {| st_request := st_request st; st_trace := st_trace st ++ [ev] |}.

Definition set_request (r : Request) (st : State) : State :=
  {| st_request := r; st_trace := st_trace st |}.

Definition is_parse_event (ev : Event) : bool :=
  match ev with
  | EvParse _ => true
  | _ => false
  end.

Definition is_match_event (ev : Event) : bool :=
  match ev with
  | EvMatch _ _ => true
  | _ => false
  end.

(** Number of [parse] invocations recorded in a trace. *)
Definition parse_invocations (tr : list Event) : nat :=
  length (filter (λ ev, is_parse_event ev = true) tr).

(** Every [parse] invocation of the trace is its last event. *)
Fixpoint parse_is_last (tr : list Event) : bool :=
  match tr with
  | [] => true
  | ev :: rest =>
      (negb (is_parse_event ev) || bool_decide (rest = [])) && parse_is_last rest
  end.

(** The events of [n] consecutive capability checks, from position [start]. *)
Definition supports_events (m : string) (start n : nat) : list Event :=
  (λ j, EvSupports j m) <$> seq start n.

(** ** The request body parser *)

(** What the request-body-load loop over the registry does: it returns from
    the method, throws inside the [try], or runs to its end. *)
Inductive LoopExit : Type :=
| LoopReturn (requestBody : JsObj)
| LoopThrow (err : JsError)
| LoopEnd.

(** [let content = operationSpec.requestBody.content || {}] followed by the
    substitution of the two defaults when [Object.keys(content)] is empty. *)
Definition effective_content (content : option Content) : Content :=
  let content := default [] content in
  if (length (content.*1) =? 0)%nat then
    [ ("application/json",
        {| schema := Some (VObj {[ "type" := VStr "object" ]}) |});
      ("application/x-www-form-urlencoded",
        {| schema := Some (VObj {[ "type" := VStr "object" ]}) |}) ]
  else content.

(** [`${Object.keys(content)}`]: the keys joined by commas. *)
Definition keys_to_string (content : Content) : string :=
  String.concat "," (content.*1).

(** [if (matchedMediaType)] for [matchedMediaType : string | false]. *)
Definition truthy_match (r : option string) : option string :=
  match r with
  | Some s => if truthy_string s then Some s else None
  | None => None
  end.

Section WithLibraries.

(** [is] of type-is: [is(value, type)] is the matching type, or [false]
    ([None]). *)
Variable type_is : string → string → option string.

(** [json], [urlencoded] and [text] of body-parser: from the options to the
    middleware. *)
Variables json urlencoded text : JsObj → BodyParserWithCallback.

Record RequestBodyParser : Type := mkRequestBodyParser {
  parsers : list BodyParser;
  jsonParser : BodyParserWithCallback;
  urlencodedParser : BodyParserWithCallback;
  textParser : BodyParserWithCallback;
}.

(** [parseJsonBody], [parseUrlencodedBody], [parseTextBody]: methods reading
    [this.jsonParser], [this.urlencodedParser], [this.textParser], which are
    passed here as the handle. *)
Definition parseJsonBody (jsonParser : BodyParserWithCallback)
    (request : Request) : Completion JsObj * Request :=
  match parse jsonParser request with
  | (Thrown e, request) => (Thrown e, request)
  | (Returned _, request) =>
      (Returned {[ "value" := body request ]}, request)
  end.

Definition parseUrlencodedBody (urlencodedParser : BodyParserWithCallback)
    (request : Request) : Completion JsObj * Request :=
  match parse urlencodedParser request with
  | (Thrown e, request) => (Thrown e, request)
  | (Returned _, request) =>
      (Returned {[ "value" := body request;
                   "coercionRequired" := VBool true ]}, request)
  end.

Definition parseTextBody (textParser : BodyParserWithCallback)
    (request : Request) : Completion JsObj * Request :=
  match parse textParser request with
  | (Thrown e, request) => (Thrown e, request)
  | (Returned _, request) =>
      (Returned {[ "value" := body request ]}, request)
  end.

(** [!!is(mediaType, pattern)] *)
Definition supports_pattern (pattern mediaType : string) : Completion bool :=
  Returned (bool_decide (is_Some (truthy_match (type_is mediaType pattern)))).

(** The three entries that the constructor appends to the registry. *)
Definition builtin_parsers
    (jsonParser urlencodedParser textParser : BodyParserWithCallback)
  : list BodyParser :=
  [ {| parser_name := Some "json";
       supports := supports_pattern "json";
       parser_parse := parseJsonBody jsonParser |};
    {| parser_name := Some "urlencoded";
       supports := supports_pattern "urlencoded";
       parser_parse := parseUrlencodedBody urlencodedParser |};
    {| parser_name := Some "text";
       supports := supports_pattern "text/*";
       parser_parse := parseTextBody textParser |} ].

(** The constructor. [options] defaults to [{}] and [parsers] to [[]]. *)
Definition new_RequestBodyParser
    (options : JsObj) (ext : list BodyParser) : RequestBodyParser :=
  let jsonOptions := effective_options TJson options in
  let jsonParser := json jsonOptions in
  let urlencodedOptions := effective_options TUrlencoded options in
  let urlencodedParser := urlencoded urlencodedOptions in
  let textOptions := effective_options TText options in
  let textParser := text textOptions in
  {| parsers := ext ++ builtin_parsers jsonParser urlencodedParser textParser;
     jsonParser := jsonParser;
     urlencodedParser := urlencodedParser;
     textParser := textParser |}.

(** The loop [for (const type in content)]: the first declared type that
    the request content type matches is recorded in [requestBody]. *)
Fixpoint match_content (contentType : string) (content : Content)
    (requestBody : JsObj) (st : State) : option string * JsObj * State :=
  match content with
  | [] => (None, requestBody, st)
  | (type, media) :: rest =>
      let st := log (EvMatch contentType type) st in
      match truthy_match (type_is contentType type) with
      | Some matchedMediaType =>
          let requestBody := <[ "mediaType" := VStr type ]> requestBody in
          let requestBody :=
            <[ "schema" := default VUndefined (schema media) ]> requestBody in
          (Some matchedMediaType, requestBody, st)
      | None => match_content contentType rest requestBody st
      end
  end.

(** The loop [for (const parser of this.parsers)] inside the [try]; [i] is
    the position of the head of [ps] in the registry. *)
Fixpoint select_and_parse (i : nat) (ps : list BodyParser)
    (matchedMediaType : string) (requestBody : JsObj) (st : State)
  : LoopExit * State :=
  match ps with
  | [] => (LoopEnd, st)
  | parser :: rest =>
      let st := log (EvSupports i matchedMediaType) st in
      match supports parser matchedMediaType with
      | Thrown err => (LoopThrow err, st)
      | Returned false =>
          select_and_parse (S i) rest matchedMediaType requestBody st
      | Returned true =>
          let st := log (EvParse i) st in
          match parser_parse parser (st_request st) with
          | (Thrown err, r) => (LoopThrow err, set_request r st)
          | (Returned body, r) =>
              (LoopReturn (assign requestBody [VObj body]), set_request r st)
          end
      end
  end.

(** [loadRequestBodyIfNeeded(operationSpec, request, options)]. The third
    argument is only written to the debug log and is left out. *)
Definition loadRequestBodyIfNeeded (this : RequestBodyParser)
    (operationSpec : OperationObject) (request : Request)
  : Completion JsObj * State :=
  let st := {| st_request := request; st_trace := [] |} in
  let requestBody : JsObj := {[ "value" := VUndefined ]} in
  match operation_requestBody operationSpec with
  | None => (Returned requestBody, st)
  | Some spec =>
      let contentType :=
        or_string (getContentType request) "application/json" in
      match spec with
      | ReferenceObject _ =>
          (Thrown (Error "$ref requestBody is not supported yet."), st)
      | RequestBodyObject content =>
          let content := effective_content content in
          let '(matchedMediaType, requestBody, st) :=
            match_content contentType content requestBody st in
          match matchedMediaType with
          | None =>
              (Thrown (UnsupportedMediaType
                 ("Content-type " +:+ contentType +:+ " does not match ["
                    +:+ keys_to_string content +:+ "].")), st)
          | Some matchedMediaType =>
              match select_and_parse 0 (parsers this) matchedMediaType
                      requestBody st with
              | (LoopReturn result, st) => (Returned result, st)
              | (LoopThrow err, st) =>
                  (Thrown (normalizeParsingError err), st)
              | (LoopEnd, st) =>
                  (Thrown (UnsupportedMediaType
                     ("Content-type " +:+ matchedMediaType
                        +:+ " is not supported.")), st)
              end
          end
      end
  end.

End WithLibraries.

(** ** Vocabulary of the statements *)

(** [getContentType(request) || 'application/json'] *)
Definition request_content_type (req : Request) : string :=
  or_string (getContentType req) "application/json".

(** [requestBody] when the orchestrator starts. *)
Definition initial_result : JsObj := {[ "value" := VUndefined ]}.

(** [requestBody] after the declared type [ty], with entry [media], has been
    recorded by the type-matching loop. *)
Definition recorded_result (ty : string) (media : MediaTypeObject) : JsObj :=
  <[ "schema" := default VUndefined (schema media) ]>
    (<[ "mediaType" := VStr ty ]> initial_result).

(** [ty] is the first key of [content], in enumeration order, that the
    matcher accepts for [contentType], and [m] is what the matcher answers
    for it (the [matchedMediaType] of the source). *)
Definition first_match (type_is : string → string → option string)
    (contentType : string) (content : Content)
    (ty : string) (media : MediaTypeObject) (m : string) : Prop :=
  ∃ pre post,
    content = pre ++ (ty, media) :: post
    ∧ Forall (λ ty', truthy_match (type_is contentType ty') = None) (pre.*1)
    ∧ truthy_match (type_is contentType ty) = Some m.

(** [p], at position [length pre], is the first entry of the registry whose
    capability check does not answer [false] for [m]. *)
Definition first_candidate (ps : list BodyParser) (m : string)
    (pre : list BodyParser) (p : BodyParser) (post : list BodyParser) : Prop :=
  ps = pre ++ p :: post ∧ Forall (λ q, supports q m = Returned false) pre.

(** ** Stand-ins for the external libraries, to run the model

    type-is and body-parser are not part of this package. The statements
    below hold for every matcher and every middleware; these small
    stand-ins only serve to evaluate the model on concrete requests. *)

Module Sample.

(** The part of a pattern before a final [*], if it ends with one. *)
Fixpoint wildcard_prefix (s : string) : option string :=
  match s with
  | EmptyString => None
  | String c rest =>
      if String.eqb s "*" then Some EmptyString
      else String c <$> wildcard_prefix rest
  end.

(** The short names that type-is expands. *)
Definition normalize (type : string) : string :=
  if String.eqb type "json" then "application/json"
  else if String.eqb type "urlencoded" then "application/x-www-form-urlencoded"
  else type.

(** A matcher after type-is: an exact (or short-name) match answers the
    pattern, a wildcard match answers the value. *)
Definition type_is (value type : string) : option string :=
  match wildcard_prefix (normalize type) with
  | Some pre => if String.prefix pre value then Some value else None
  | None => if String.eqb value (normalize type) then Some type else None
  end.

(** A middleware that rejects the payload ["{"] with an error that has no
    status code and otherwise stores the payload in [request.body]. *)
Definition handle (options : JsObj) : BodyParserWithCallback :=
  λ req,
    if String.eqb (payload req) "{" then
      (Some {| name := "SyntaxError";
               message := "Unexpected end of JSON input";
               statusCode := None |}, req)
    else
      (None, {| headers := headers req; payload := "";
                body := VStr (payload req) |}).

Definition request (contentType : option string) (payload : string) : Request :=
  {| headers := match contentType with
                | Some ct => {[ "content-type" := ct ]}
                | None => ∅
                end;
     payload := payload;
     body := VUndefined |}.

Definition object_schema : JsVal := VObj {[ "type" := VStr "object" ]}.

(** An operation that declares [application/json] only. *)
Definition json_operation : OperationObject :=
  {| operation_requestBody :=
       Some (RequestBodyObject
               (Some [("application/json", {| schema := Some object_schema |})])) |}.

(** An extension entry that claims [application/json] and returns a fixed
    value. *)
Definition custom_json : BodyParser :=
  {| parser_name := Some "custom";
     supports := λ m, Returned (String.eqb m "application/json");
     parser_parse := λ req, (Returned {[ "value" := VStr "custom" ]}, req) |}.

(** An extension entry whose parse result carries its own [mediaType] and
    [schema]. *)
Definition relabelling : BodyParser :=
  {| parser_name := Some "relabelling";
     supports := λ m, Returned true;
     parser_parse := λ req,
       (Returned {[ "value" := VStr (payload req);
                    "mediaType" := VStr "text/plain";
                    "schema" := VNull ]}, req) |}.

(** An extension entry whose parse fails with the given status code. *)
Definition failing (code : option Z) : BodyParser :=
  {| parser_name := Some "failing";
     supports := λ m, Returned true;
     parser_parse := λ req,
       (Thrown {| name := "PayloadError"; message := "cannot read";
                  statusCode := code |}, req) |}.

(** An extension entry whose capability check throws. *)
Definition broken (code : option Z) : BodyParser :=
  {| parser_name := Some "broken";
     supports := λ m,
       Thrown {| name := "TypeError"; message := "supports failed";
                 statusCode := code |};
     parser_parse := λ req, (Returned ∅, req) |}.

Definition parser (options : JsObj) (ext : list BodyParser) : RequestBodyParser :=
  new_RequestBodyParser type_is handle handle handle options ext.

Definition load (options : JsObj) (ext : list BodyParser)
    (op : OperationObject) (req : Request) : Completion JsObj * State :=
  loadRequestBodyIfNeeded type_is (parser options ext) op req.

End Sample.

(** ** Option resolver: lemmas *)

Lemma getParserOptions_lookup_format_key t options k :
  is_format_key k = true → getParserOptions t options !! k = None.
Proof.
  unfold is_format_key. intros Hk%bool_decide_eq_true.
  unfold getParserOptions. cbn [foldl assign].
  destruct Hk as [-> | [-> | ->]].
  - rewrite lookup_delete_ne by done. rewrite lookup_delete_ne by done.
    apply lookup_delete_eq.
  - rewrite lookup_delete_ne by done. apply lookup_delete_eq.
  - apply lookup_delete_eq.
Qed.

Lemma getParserOptions_lookup_other t options k :
  is_format_key k = false →
  getParserOptions t options !! k =
    match options !! k with
    | Some v => Some v
    | None =>
        match get options (type_key t) with
        | VObj specific => specific !! k
        | _ => None
        end
    end.
Proof.
  unfold is_format_key. intros Hk%bool_decide_eq_false.
  assert (k ≠ "json" ∧ k ≠ "urlencoded" ∧ k ≠ "text") as (H1 & H2 & H3)
    by (repeat split; intros ->; apply Hk; auto).
  unfold getParserOptions. cbn [foldl assign].
  rewrite !lookup_delete_ne by done.
  unfold assign1 at 1. rewrite lookup_union.
  destruct (options !! k) as [v|] eqn:Hv.
  - by destruct (assign1 ∅ _ !! k).
  - unfold assign1.
    destruct (get options (type_key t)) as [| | | | |specific];
      rewrite ?lookup_empty; try done.
    rewrite lookup_union, lookup_empty. by destruct (specific !! k).
Qed.

(** ** Error normalizer: lemmas *)

Lemma normalizeParsingError_message err :
  message (normalizeParsingError err) = message err
  ∧ name (normalizeParsingError err) = name err.
Proof. unfold normalizeParsingError. by case (_ || _). Qed.

Lemma normalizeParsingError_client err c :
  statusCode err = Some c → 400 ≤ c ≤ 499 →
  normalizeParsingError err = err.
Proof.
  intros Hc Hr. unfold normalizeParsingError. rewrite Hc. cbn.
  destruct (Z.eqb_spec c 0); [lia|].
  destruct (Z.leb_spec 500 c); [lia|]. done.
Qed.

Lemma normalizeParsingError_absent err :
  statusCode err = None → statusCode (normalizeParsingError err) = Some 400.
Proof. intros Hc. unfold normalizeParsingError. by rewrite Hc. Qed.

Lemma normalizeParsingError_server err c :
  statusCode err = Some c → 500 ≤ c →
  statusCode (normalizeParsingError err) = Some 400.
Proof.
  intros Hc Hr. unfold normalizeParsingError. rewrite Hc. cbn.
  destruct (Z.leb_spec 500 c); [|lia]. by rewrite orb_true_r.
Qed.

Lemma normalizeParsingError_below_500 err :
  ∃ c, statusCode (normalizeParsingError err) = Some c ∧ c ≠ 0 ∧ c < 500.
Proof.
  unfold normalizeParsingError.
  destruct (statusCode err) as [c|] eqn:Hc; cbn.
  - destruct (Z.eqb_spec c 0); cbn; [exists 400; split; [done|lia]|].
    destruct (Z.leb_spec 500 c); cbn; [exists 400; split; [done|lia]|].
    exists c. by rewrite Hc.
  - exists 400. split; [done|lia].
Qed.

Lemma normalizeParsingError_idemp err :
  normalizeParsingError (normalizeParsingError err) = normalizeParsingError err.
Proof.
  destruct (normalizeParsingError_below_500 err) as (c & Hc & Hz & Hlt).
  unfold normalizeParsingError at 1. rewrite Hc. cbn.
  destruct (Z.eqb_spec c 0); [lia|].
  destruct (Z.leb_spec 500 c); [lia|]. done.
Qed.

(** ** Traces: lemmas *)

Lemma parse_invocations_app tr1 tr2 :
  parse_invocations (tr1 ++ tr2) = (parse_invocations tr1 + parse_invocations tr2)%nat.
Proof. unfold parse_invocations. by rewrite filter_app, length_app. Qed.

Lemma parse_invocations_no_parse tr :
  Forall (λ ev, is_parse_event ev = false) tr → parse_invocations tr = 0%nat.
Proof.
  unfold parse_invocations. induction 1 as [|ev tr Hev _ IH]; [done|].
  rewrite filter_cons. destruct (decide _) as [Heq|]; [congruence|done].
Qed.

Lemma parse_is_last_no_parse tr :
  Forall (λ ev, is_parse_event ev = false) tr → parse_is_last tr = true.
Proof.
  induction 1 as [|ev tr Hev _ IH]; [done|]. cbn. by rewrite Hev, IH.
Qed.

Lemma parse_is_last_app tr1 tr2 :
  Forall (λ ev, is_parse_event ev = false) tr1 →
  parse_is_last tr2 = true → parse_is_last (tr1 ++ tr2) = true.
Proof.
  intros H1 H2. induction H1 as [|ev tr Hev _ IH]; [done|].
  cbn. by rewrite Hev, IH.
Qed.

Lemma supports_events_no_parse m start n :
  Forall (λ ev, is_parse_event ev = false) (supports_events m start n).
Proof. unfold supports_events. apply Forall_fmap, Forall_forall. done. Qed.

Lemma supports_events_snoc m start n :
  supports_events m start (S n) =
    supports_events m start n ++ [EvSupports (start + n) m].
Proof. unfold supports_events. by rewrite seq_S, fmap_app. Qed.

(** ** The two loops: lemmas *)

Section Loops.

Variable type_is : string → string → option string.

(** The type-matching loop only appends matcher calls to the trace and
    leaves the request alone. *)
Lemma match_content_state ct content rb st :
  ∃ evs,
    (match_content type_is ct content rb st).2 =
      {| st_request := st_request st; st_trace := st_trace st ++ evs |}
    ∧ Forall (λ ev, is_parse_event ev = false) evs
    ∧ Forall (λ ev, is_match_event ev = true) evs.
Proof.
  revert st. induction content as [|[ty media] rest IH]; intros st; cbn.
  - exists []. rewrite app_nil_r. by destruct st.
  - destruct (truthy_match (type_is ct ty)) as [m|]; cbn.
    + exists [EvMatch ct ty]. repeat split; by repeat constructor.
    + destruct (IH (log (EvMatch ct ty) st)) as (evs & -> & Hp & Hm).
      exists (EvMatch ct ty :: evs). cbn. rewrite <- app_assoc.
      repeat split; by constructor.
Qed.

(** No declared type matches: the loop ends with [false], [requestBody]
    untouched. *)
Lemma match_content_none ct content rb st :
  Forall (λ ty, truthy_match (type_is ct ty) = None) (content.*1) →
  (match_content type_is ct content rb st).1 = (None, rb).
Proof.
  revert st. induction content as [|[ty media] rest IH]; intros st; cbn.
  - done.
  - intros [Hty Hrest]%Forall_cons. rewrite Hty. by apply IH.
Qed.

(** A match records a declared type and its schema in [requestBody]. *)
Lemma match_content_some ct content rb st m rb' :
  (match_content type_is ct content rb st).1 = (Some m, rb') →
  ∃ pre ty media post,
    content = pre ++ (ty, media) :: post
    ∧ Forall (λ ty', truthy_match (type_is ct ty') = None) (pre.*1)
    ∧ truthy_match (type_is ct ty) = Some m
    ∧ rb' = <[ "schema" := default VUndefined (schema media) ]>
              (<[ "mediaType" := VStr ty ]> rb).
Proof.
  revert st. induction content as [|[ty media] rest IH]; intros st; cbn.
  - done.
  - destruct (truthy_match (type_is ct ty)) as [m'|] eqn:Hty; cbn.
    + intros [= -> <-]. by exists [], ty, media, rest.
    + intros (pre & ty' & media' & post & -> & Hpre & Hm & ->)%IH.
      exists ((ty, media) :: pre), ty', media', post.
      repeat split; try done. cbn. by constructor.
Qed.

Lemma match_content_first ct pre ty media post rb st m :
  Forall (λ ty', truthy_match (type_is ct ty') = None) (pre.*1) →
  truthy_match (type_is ct ty) = Some m →
  (match_content type_is ct (pre ++ (ty, media) :: post) rb st).1 =
    (Some m, <[ "schema" := default VUndefined (schema media) ]>
               (<[ "mediaType" := VStr ty ]> rb)).
Proof.
  intros Hpre Hm. revert st.
  induction pre as [|[ty' media'] pre IH]; intros st; cbn.
  - by rewrite Hm.
  - apply Forall_cons in Hpre as [Hty' Hpre]. cbn in Hty'. rewrite Hty'.
    by apply IH.
Qed.

(** The registry loop, up to and including the first entry whose
    capability check does not answer [false]. *)
Lemma select_and_parse_skip i pre rest m rb st :
  Forall (λ q, supports q m = Returned false) pre →
  select_and_parse i (pre ++ rest) m rb st =
    select_and_parse (i + length pre) rest m rb
      {| st_request := st_request st;
         st_trace := st_trace st ++ supports_events m i (length pre) |}.
Proof.
  intros Hpre. revert i st.
  induction Hpre as [|q pre Hq _ IH]; intros i st; cbn [app length].
  - rewrite Nat.add_0_r. cbn. rewrite app_nil_r. by destruct st.
  - cbn [select_and_parse]. rewrite Hq, IH. cbn.
    rewrite <- app_assoc, Nat.add_succ_r. done.
Qed.

Lemma select_and_parse_end i ps m rb st :
  Forall (λ q, supports q m = Returned false) ps →
  select_and_parse i ps m rb st =
    (LoopEnd, {| st_request := st_request st;
                 st_trace := st_trace st ++ supports_events m i (length ps) |}).
Proof.
  intros Hps. rewrite <- (app_nil_r ps) at 1.
  by rewrite select_and_parse_skip.
Qed.

Lemma select_and_parse_selected i pre p post m rb st :
  Forall (λ q, supports q m = Returned false) pre →
  supports p m = Returned true →
  select_and_parse i (pre ++ p :: post) m rb st =
    let tr := st_trace st ++ supports_events m i (S (length pre))
                ++ [EvParse (i + length pre)] in
    match parser_parse p (st_request st) with
    | (Thrown err, r) =>
        (LoopThrow err, {| st_request := r; st_trace := tr |})
    | (Returned body, r) =>
        (LoopReturn (body ∪ rb), {| st_request := r; st_trace := tr |})
    end.
Proof.
  intros Hpre Hp. rewrite select_and_parse_skip by done.
  cbn [select_and_parse]. rewrite Hp.
  unfold log, set_request, assign. cbn [st_request st_trace foldl assign1].
  rewrite supports_events_snoc, <- !app_assoc.
  by destruct (parser_parse p (st_request st)) as [[body|err] r].
Qed.

Lemma select_and_parse_supports_throws i pre p post m rb st err :
  Forall (λ q, supports q m = Returned false) pre →
  supports p m = Thrown err →
  select_and_parse i (pre ++ p :: post) m rb st =
    (LoopThrow err,
     {| st_request := st_request st;
        st_trace := st_trace st ++ supports_events m i (S (length pre)) |}).
Proof.
  intros Hpre Hp. rewrite select_and_parse_skip by done.
  cbn [select_and_parse]. rewrite Hp.
  unfold log. cbn [st_request st_trace].
  by rewrite supports_events_snoc, <- !app_assoc.
Qed.

(** Every run of the registry loop has one of three shapes. *)
Lemma select_and_parse_cases ps m :
  Forall (λ q, supports q m = Returned false) ps
  ∨ (∃ pre p post, ps = pre ++ p :: post
       ∧ Forall (λ q, supports q m = Returned false) pre
       ∧ supports p m = Returned true)
  ∨ (∃ pre p post err, ps = pre ++ p :: post
       ∧ Forall (λ q, supports q m = Returned false) pre
       ∧ supports p m = Thrown err).
Proof.
  induction ps as [|q ps IH]; [by left|].
  destruct (supports q m) as [[]|err] eqn:Hq.
  - right; left. by exists [], q, ps.
  - destruct IH as [IH | [(pre & p & post & -> & Hpre & Hp)
                        | (pre & p & post & err & -> & Hpre & Hp)]].
    + left. by constructor.
    + right; left. exists (q :: pre), p, post. repeat split; try done.
      by constructor.
    + right; right. exists (q :: pre), p, post, err.
      repeat split; try done. by constructor.
  - right; right. by exists [], q, ps, err.
Qed.

End Loops.

Example sample_json_body :
  (Sample.load ∅ [] Sample.json_operation
     (Sample.request (Some "application/json") "{}")).1
  = Returned {[ "value" := VStr "{}"; "mediaType" := VStr "application/json";
                "schema" := Sample.object_schema ]}.
Proof. vm_compute. reflexivity. Qed.

(** ** The orchestrator: lemmas *)

Section Orchestrator.

Variable type_is : string → string → option string.

Lemma first_match_elem ct content ty media m :
  first_match type_is ct content ty media m → (ty, media) ∈ content.
Proof. intros (pre & post & -> & _). set_solver. Qed.

(** Once a declared type has matched, the orchestrator is the registry loop
    followed by the normalizer or by the second 415. *)
Lemma load_after_match this op req content ty media m :
  operation_requestBody op = Some (RequestBodyObject content) →
  first_match type_is (request_content_type req) (effective_content content)
    ty media m →
  ∃ evs,
    Forall (λ ev, is_parse_event ev = false) evs
    ∧ Forall (λ ev, is_match_event ev = true) evs
    ∧ loadRequestBodyIfNeeded type_is this op req =
        match select_and_parse 0 (parsers this) m (recorded_result ty media)
                {| st_request := req; st_trace := evs |} with
        | (LoopReturn result, st) => (Returned result, st)
        | (LoopThrow err, st) => (Thrown (normalizeParsingError err), st)
        | (LoopEnd, st) =>
            (Thrown (UnsupportedMediaType
               ("Content-type " +:+ m +:+ " is not supported.")), st)
        end.
Proof.
  intros Hop (pre & post & Hc & Hpre & Hm).
  unfold loadRequestBodyIfNeeded. rewrite Hop.
  fold (request_content_type req).
  set (st0 := {| st_request := req; st_trace := [] |}).
  pose proof (match_content_first type_is _ pre ty media post
                initial_result st0 m Hpre Hm) as H1.
  destruct (match_content_state type_is (request_content_type req)
              (effective_content content) initial_result st0)
    as (evs & H2 & Hp & Hmt).
  rewrite <- Hc in H1. fold initial_result.
  destruct (match_content _ _ _ _ _) as [[mm rb] st1].
  cbn in H1, H2. injection H1 as -> ->. subst st1.
  exists evs. by repeat split.
Qed.

(** A [parse] invocation recorded by the registry loop is the invocation of
    the first entry whose capability check answers [true], all earlier
    checks having answered [false]. *)
Lemma select_and_parse_invoked ps m rb st :
  ∃ evs,
    (select_and_parse 0 ps m rb st).2.(st_trace) = st_trace st ++ evs
    ∧ parse_is_last evs = true
    ∧ (parse_invocations evs ≤ 1)%nat
    ∧ ∀ j, EvParse j ∈ evs →
        ∃ pre p post, ps = pre ++ p :: post ∧ length pre = j
          ∧ Forall (λ q, supports q m = Returned false) pre
          ∧ supports p m = Returned true.
Proof.
  destruct (select_and_parse_cases ps m)
    as [Hall | [(pre & p & post & -> & Hpre & Hp)
             | (pre & p & post & err & -> & Hpre & Hp)]].
  - rewrite select_and_parse_end by done. eexists. split; [done|].
    pose proof (supports_events_no_parse m 0 (length ps)) as Hno.
    split; [by apply parse_is_last_no_parse|].
    split; [rewrite parse_invocations_no_parse by done; lia|].
    intros j Hj. rewrite Forall_forall in Hno. by apply Hno in Hj.
  - rewrite select_and_parse_selected by done. cbn zeta.
    exists (supports_events m 0 (S (length pre)) ++ [EvParse (length pre)]).
    pose proof (supports_events_no_parse m 0 (S (length pre))) as Hno.
    split; [by destruct (parser_parse p _) as [[|] ?]|].
    split; [by apply parse_is_last_app|].
    split.
    { rewrite parse_invocations_app, parse_invocations_no_parse by done.
      unfold parse_invocations. rewrite filter_cons_True by done.
      rewrite filter_nil. cbn. lia. }
    intros j [Hj|Hj]%elem_of_app.
    + rewrite Forall_forall in Hno. by apply Hno in Hj.
    + apply list_elem_of_singleton in Hj as [= ->].
      by exists pre, p, post.
  - rewrite (select_and_parse_supports_throws _ _ _ _ _ _ _ err) by done.
    eexists.
    split; [done|].
    pose proof (supports_events_no_parse m 0 (S (length pre))) as Hno.
    split; [by apply parse_is_last_no_parse|].
    split; [rewrite parse_invocations_no_parse by done; lia|].
    intros j Hj. rewrite Forall_forall in Hno. by apply Hno in Hj.
Qed.

End Orchestrator.

(** ** Option resolver: precedence *)

(** The options handed to a built-in parser, key by key: the shared value if
    the shared object has the key, else the value of the format's own
    sub-object, else the hard-coded default. *)
Lemma effective_options_lookup t options k :
  is_format_key k = false →
  effective_options t options !! k =
    match options !! k with
    | Some v => Some v
    | None =>
        match get options (type_key t) with
        | VObj specific =>
            match specific !! k with
            | Some v => Some v
            | None => default_options t !! k
            end
        | _ => default_options t !! k
        end
    end.
Proof.
  intros Hk. unfold effective_options, assign. cbn [foldl assign1].
  rewrite lookup_union, getParserOptions_lookup_other by done.
  destruct (options !! k) as [v|].
  - by destruct (default_options t !! k).
  - destruct (get options (type_key t)) as [| | | | |specific];
      by destruct (default_options t !! k).
Qed.

(** The format sub-objects do not leak into the effective options. *)
Lemma effective_options_no_format_key t options k :
  is_format_key k = true → effective_options t options !! k = None.
Proof.
  intros Hk. unfold effective_options, assign. cbn [foldl assign1].
  rewrite lookup_union, getParserOptions_lookup_format_key by done.
  apply bool_decide_eq_true in Hk.
  destruct t; destruct Hk as [-> | [-> | ->]]; by vm_compute.
Qed.

(** Claim C1. With the options [{limit: '100kb', json: {limit: '5mb'}}] the
    JSON parser is created with the limit ['100kb']: the shared value
    overwrites the one of the [json] sub-object, because
    [Object.assign(opts, options[type], options)] copies the shared options
    last. The claim asks for ['5mb']. The hard-coded default is overridden
    and the [json] key itself is removed, as claimed. *)
Theorem C1_shared_value_overwrites_format_value :
  let options : JsObj :=
    {[ "limit" := VStr "100kb";
       "json" := VObj {[ "limit" := VStr "5mb" ]} ]} in
  get options "limit" = VStr "100kb"
  ∧ get options "json" = VObj {[ "limit" := VStr "5mb" ]}
  ∧ effective_options TJson options
    = {[ "type" := VStr "json"; "limit" := VStr "100kb" ]}.
Proof. by vm_compute. Qed.

(** ** The claims about the orchestrator *)

(** An error passed to the callback of a middleware rejects the promise of
    [parse], normalized. *)
Lemma parse_rejects handle req err r :
  handle req = (Some err, r) →
  parse handle req = (Thrown (normalizeParsingError err), r).
Proof. intros Hh. unfold parse. by rewrite Hh. Qed.

(** The built-in entries hand the middleware's error on, normalized once by
    [parse]; normalizing it again in the orchestrator changes nothing. *)
Lemma builtin_parse_error type_is jsonP urlencodedP textP p req err r :
  p ∈ builtin_parsers type_is jsonP urlencodedP textP →
  parser_parse p req = (Thrown err, r) →
  normalizeParsingError err = err.
Proof.
  intros Hp Herr.
  assert (∀ handle, (parse handle req).1 = Thrown err →
            normalizeParsingError err = err) as Hparse.
  { intros handle. unfold parse. destruct (handle req) as [[e|] r']; cbn.
    - intros [= <-]. apply normalizeParsingError_idemp.
    - done. }
  unfold builtin_parsers in Hp.
  apply elem_of_cons in Hp as [-> | Hp];
    [|apply elem_of_cons in Hp as [-> | Hp];
      [|apply list_elem_of_singleton in Hp as ->]];
    cbn in Herr;
    [apply (Hparse jsonP); unfold parseJsonBody in Herr
    |apply (Hparse urlencodedP); unfold parseUrlencodedBody in Herr
    |apply (Hparse textP); unfold parseTextBody in Herr];
    destruct (parse _ req) as [[[]|e] r']; by inversion Herr.
Qed.

(** Claim C3. When the selected entry's [parse] fails with [err], the caller
    receives [normalizeParsingError err]: the same error with its status code
    kept if it lies in 400..499 and set to 400 if it is absent or at least
    500; the status code received is always below 500. *)
Theorem C3_parsing_error_status
    (type_is : string → string → option string) (this : RequestBodyParser)
    (op : OperationObject) (req : Request) (content : option Content)
    (ty : string) (media : MediaTypeObject) (m : string)
    (pre : list BodyParser) (p : BodyParser) (post : list BodyParser)
    (err : JsError) (r : Request) :
  operation_requestBody op = Some (RequestBodyObject content) →
  first_match type_is (request_content_type req) (effective_content content)
    ty media m →
  first_candidate (parsers this) m pre p post →
  supports p m = Returned true →
  parser_parse p req = (Thrown err, r) →
  ∃ err',
    (loadRequestBodyIfNeeded type_is this op req).1 = Thrown err'
    ∧ err' = normalizeParsingError err
    ∧ name err' = name err ∧ message err' = message err
    ∧ (∀ c, statusCode err = Some c → 400 ≤ c ≤ 499 → statusCode err' = Some c)
    ∧ (statusCode err = None → statusCode err' = Some 400)
    ∧ (∀ c, statusCode err = Some c → 500 ≤ c → statusCode err' = Some 400)
    ∧ (∃ c', statusCode err' = Some c' ∧ c' < 500).
Proof.
  intros Hop Hmatch [Hps Hpre] Hsup Hparse.
  destruct (load_after_match type_is this op req content ty media m Hop Hmatch)
    as (evs & _ & _ & ->).
  rewrite Hps, select_and_parse_selected by done. cbn zeta.
  cbn [st_request]. rewrite Hparse. cbn [fst].
  exists (normalizeParsingError err).
  destruct (normalizeParsingError_message err) as [Hmsg Hname].
  repeat split; try done.
  - intros c Hc Hrange. by rewrite normalizeParsingError_client with (c := c).
  - apply normalizeParsingError_absent.
  - apply normalizeParsingError_server.
  - destruct (normalizeParsingError_below_500 err) as (c & Hc & _ & Hlt).
    by exists c.
Qed.

Lemma C3_parsing_error_status_witness :
  (Sample.load ∅ [Sample.failing (Some 503)] Sample.json_operation
     (Sample.request None "{}")).1
  = Thrown {| name := "PayloadError"; message := "cannot read";
              statusCode := Some 400 |}.
Proof.
  destruct (C3_parsing_error_status Sample.type_is
              (Sample.parser ∅ [Sample.failing (Some 503)])
              Sample.json_operation (Sample.request None "{}")
              (Some [("application/json",
                      {| schema := Some Sample.object_schema |})])
              "application/json" {| schema := Some Sample.object_schema |}
              "application/json"
              [] (Sample.failing (Some 503))
              (builtin_parsers Sample.type_is
                 (Sample.handle (effective_options TJson ∅))
                 (Sample.handle (effective_options TUrlencoded ∅))
                 (Sample.handle (effective_options TText ∅)))
              {| name := "PayloadError"; message := "cannot read";
                 statusCode := Some 503 |}
              (Sample.request None "{}"))
    as (err' & Hload & -> & _).
  - reflexivity.
  - exists [], []. split; [reflexivity | split; [constructor | reflexivity]].
  - split; [reflexivity | constructor].
  - reflexivity.
  - reflexivity.
  - exact Hload.
Defined.

(** Claim C10. When the capability check of an entry throws [err] (every
    earlier check having answered [false]), the error is caught by the [try]
    around the registry loop: the caller receives [normalizeParsingError err],
    with status code 400 if [err] had none or one of at least 500, and not the
    415 of the unsupported media type; no [parse] is invoked. *)
Theorem C10_supports_error_is_normalized
    (type_is : string → string → option string) (this : RequestBodyParser)
    (op : OperationObject) (req : Request) (content : option Content)
    (ty : string) (media : MediaTypeObject) (m : string)
    (pre : list BodyParser) (p : BodyParser) (post : list BodyParser)
    (err : JsError) :
  operation_requestBody op = Some (RequestBodyObject content) →
  first_match type_is (request_content_type req) (effective_content content)
    ty media m →
  first_candidate (parsers this) m pre p post →
  supports p m = Thrown err →
  let result := loadRequestBodyIfNeeded type_is this op req in
  result.1 = Thrown (normalizeParsingError err)
  ∧ name (normalizeParsingError err) = name err
  ∧ message (normalizeParsingError err) = message err
  ∧ (statusCode err = None → statusCode (normalizeParsingError err) = Some 400)
  ∧ (∀ c, statusCode err = Some c → 500 ≤ c →
       statusCode (normalizeParsingError err) = Some 400)
  ∧ (∀ c, statusCode err = Some c → c ≠ 0 → c < 500 →
       normalizeParsingError err = err)
  ∧ parse_invocations (st_trace result.2) = 0%nat.
Proof.
  intros Hop Hmatch [Hps Hpre] Hsup.
  destruct (load_after_match type_is this op req content ty media m Hop Hmatch)
    as (evs & Hevs & _ & Hload).
  cbn zeta. rewrite Hload, Hps.
  rewrite (select_and_parse_supports_throws _ _ _ _ _ _ _ err) by done.
  cbn [fst snd st_trace].
  destruct (normalizeParsingError_message err) as [Hmsg Hname].
  repeat split; try done.
  - apply normalizeParsingError_absent.
  - apply normalizeParsingError_server.
  - intros c Hc Hz Hlt. unfold normalizeParsingError. rewrite Hc. cbn.
    destruct (Z.eqb_spec c 0); [lia|]. destruct (Z.leb_spec 500 c); [lia|].
    done.
  - rewrite parse_invocations_app, !parse_invocations_no_parse; try done.
    apply supports_events_no_parse.
Qed.

Lemma C10_supports_error_is_normalized_witness :
  (Sample.load ∅ [Sample.broken None] Sample.json_operation
     (Sample.request (Some "application/json") "{}")).1
  = Thrown {| name := "TypeError"; message := "supports failed";
              statusCode := Some 400 |}.
Proof.
  refine (proj1 (C10_supports_error_is_normalized Sample.type_is
              (Sample.parser ∅ [Sample.broken None])
              Sample.json_operation
              (Sample.request (Some "application/json") "{}")
              (Some [("application/json",
                      {| schema := Some Sample.object_schema |})])
              "application/json" {| schema := Some Sample.object_schema |}
              "application/json"
              [] (Sample.broken None)
              (builtin_parsers Sample.type_is
                 (Sample.handle (effective_options TJson ∅))
                 (Sample.handle (effective_options TUrlencoded ∅))
                 (Sample.handle (effective_options TText ∅)))
              {| name := "TypeError"; message := "supports failed";
                 statusCode := None |} _ _ _ _)).
  - reflexivity.
  - exists [], []. split; [reflexivity | split; [constructor | reflexivity]].
  - split; [reflexivity | constructor].
  - reflexivity.
Defined.

(** The built-in entries return [value] (and [coercionRequired]) only. *)
Lemma builtin_parse_result type_is jsonP urlencodedP textP p req res r :
  p ∈ builtin_parsers type_is jsonP urlencodedP textP →
  parser_parse p req = (Returned res, r) →
  res !! "mediaType" = None ∧ res !! "schema" = None
  ∧ res !! "value" = Some (body r).
Proof.
  intros Hp Hres. unfold builtin_parsers in Hp.
  apply elem_of_cons in Hp as [-> | Hp];
    [|apply elem_of_cons in Hp as [-> | Hp];
      [|apply list_elem_of_singleton in Hp as ->]];
    cbn in Hres;
    [unfold parseJsonBody in Hres
    |unfold parseUrlencodedBody in Hres
    |unfold parseTextBody in Hres];
    destruct (parse _ req) as [[[]|e] r']; inversion Hres; subst;
    by vm_compute.
Qed.

(** Claim C2, as the code has it. On success the result is the parse result
    laid over the recorded object, [Object.assign(requestBody, body)]: every
    field that the parse result supplies overwrites the recorded one, and
    every other field keeps its recorded value. So [mediaType] and [schema]
    are preserved whenever the parse result does not itself contain them,
    which is the case for the three built-in entries, whose results also
    overwrite [value]. *)
Theorem C2_merge_keeps_fields_not_supplied
    (type_is : string → string → option string) (this : RequestBodyParser)
    (op : OperationObject) (req : Request) (content : option Content)
    (ty : string) (media : MediaTypeObject) (m : string)
    (pre : list BodyParser) (p : BodyParser) (post : list BodyParser)
    (res : JsObj) (r : Request) :
  operation_requestBody op = Some (RequestBodyObject content) →
  first_match type_is (request_content_type req) (effective_content content)
    ty media m →
  first_candidate (parsers this) m pre p post →
  supports p m = Returned true →
  parser_parse p req = (Returned res, r) →
  ∃ result,
    (loadRequestBodyIfNeeded type_is this op req).1 = Returned result
    ∧ recorded_result ty media !! "mediaType" = Some (VStr ty)
    ∧ recorded_result ty media !! "schema"
        = Some (default VUndefined (schema media))
    ∧ (∀ k v, res !! k = Some v → result !! k = Some v)
    ∧ (∀ k, res !! k = None → result !! k = recorded_result ty media !! k)
    ∧ (res !! "mediaType" = None → result !! "mediaType" = Some (VStr ty))
    ∧ (res !! "schema" = None →
         result !! "schema" = Some (default VUndefined (schema media)))
    ∧ (∀ jsonP urlencodedP textP,
         p ∈ builtin_parsers type_is jsonP urlencodedP textP →
         result !! "mediaType" = Some (VStr ty)
         ∧ result !! "schema" = Some (default VUndefined (schema media))
         ∧ result !! "value" = Some (body r)).
Proof.
  intros Hop Hmatch [Hps Hpre] Hsup Hparse.
  destruct (load_after_match type_is this op req content ty media m Hop Hmatch)
    as (evs & _ & _ & ->).
  rewrite Hps, select_and_parse_selected by done. cbn zeta.
  cbn [st_request]. rewrite Hparse. cbn [fst].
  exists (res ∪ recorded_result ty media).
  assert (recorded_result ty media !! "mediaType" = Some (VStr ty)) as Hmt
    by (unfold recorded_result; by simplify_map_eq).
  assert (recorded_result ty media !! "schema"
          = Some (default VUndefined (schema media))) as Hsc
    by (unfold recorded_result; by simplify_map_eq).
  assert (∀ k, res !! k = None →
            (res ∪ recorded_result ty media) !! k
            = recorded_result ty media !! k) as Hkeep.
  { intros k Hk. rewrite lookup_union, Hk.
    by destruct (recorded_result ty media !! k). }
  assert (∀ k v, res !! k = Some v →
            (res ∪ recorded_result ty media) !! k = Some v) as Hover.
  { intros k v Hk. rewrite lookup_union, Hk.
    by destruct (recorded_result ty media !! k). }
  do 5 (split; [done|]).
  split; [intros Hk; by rewrite Hkeep|].
  split; [intros Hk; by rewrite Hkeep|].
  intros jsonP urlencodedP textP Hin.
  destruct (builtin_parse_result _ _ _ _ _ _ _ _ Hin Hparse) as (H1 & H2 & H3).
  rewrite !Hkeep by done. split; [done|]. split; [done|]. by apply Hover.
Qed.

Lemma C2_merge_keeps_fields_not_supplied_witness :
  ∃ result,
    (Sample.load ∅ [] Sample.json_operation
       (Sample.request (Some "application/json") "{}")).1 = Returned result
    ∧ result !! "mediaType" = Some (VStr "application/json")
    ∧ result !! "schema" = Some Sample.object_schema
    ∧ result !! "value" = Some (VStr "{}").
Proof.
  pose (jsonP := Sample.handle (effective_options TJson ∅)).
  pose (urlencodedP := Sample.handle (effective_options TUrlencoded ∅)).
  pose (textP := Sample.handle (effective_options TText ∅)).
  destruct (C2_merge_keeps_fields_not_supplied Sample.type_is
              (Sample.parser ∅ [])
              Sample.json_operation
              (Sample.request (Some "application/json") "{}")
              (Some [("application/json",
                      {| schema := Some Sample.object_schema |})])
              "application/json" {| schema := Some Sample.object_schema |}
              "application/json"
              []
              {| parser_name := Some "json";
                 supports := supports_pattern Sample.type_is "json";
                 parser_parse := parseJsonBody jsonP |}
              [ {| parser_name := Some "urlencoded";
                   supports := supports_pattern Sample.type_is "urlencoded";
                   parser_parse := parseUrlencodedBody urlencodedP |};
                {| parser_name := Some "text";
                   supports := supports_pattern Sample.type_is "text/*";
                   parser_parse := parseTextBody textP |} ]
              {[ "value" := VStr "{}" ]}
              {| headers := {[ "content-type" := "application/json" ]};
                 payload := ""; body := VStr "{}" |})
    as (result & Hload & _ & _ & _ & _ & _ & _ & Hbuiltin).
  - reflexivity.
  - exists [], []. split; [reflexivity | split; [constructor | reflexivity]].
  - split; [reflexivity | constructor].
  - reflexivity.
  - reflexivity.
  - exists result. split; [exact Hload|].
    apply (Hbuiltin jsonP urlencodedP textP). left.
Defined.

(** Claim C2, as stated, fails for an extension entry whose parse result
    carries [mediaType] and [schema]: the declared type [application/json]
    and its schema are recorded, and the result has the entry's
    [text/plain] and [null] instead. *)
Lemma C2_counterexample_parse_result_overwrites :
  let op := Sample.json_operation in
  let req := Sample.request (Some "application/json") "{}" in
  first_match Sample.type_is (request_content_type req)
    [("application/json", {| schema := Some Sample.object_schema |})]
    "application/json" {| schema := Some Sample.object_schema |}
    "application/json"
  ∧ ∃ result,
      (Sample.load ∅ [Sample.relabelling] op req).1 = Returned result
      ∧ result !! "mediaType" = Some (VStr "text/plain")
      ∧ result !! "mediaType" ≠ Some (VStr "application/json")
      ∧ result !! "schema" = Some VNull
      ∧ result !! "schema" ≠ Some Sample.object_schema.
Proof.
  cbn zeta. split.
  - exists [], []. split; [reflexivity | split; [constructor | reflexivity]].
  - eexists. split; [vm_compute; reflexivity|].
    repeat split; by vm_compute.
Qed.

(** Claim C4. The registry is the externally supplied entries followed by
    [json], [urlencoded] and [text]. When an externally supplied entry [p]
    accepts the matched media type, no built-in entry is ever invoked; and
    when the entries before [p] all decline, [p] is the entry invoked, its
    [parse] being the only one, and the outcome is the outcome of [p]. *)
Theorem C4_extensions_take_priority
    (type_is : string → string → option string)
    (json urlencoded text : JsObj → BodyParserWithCallback)
    (options : JsObj) (ext : list BodyParser)
    (op : OperationObject) (req : Request) (content : option Content)
    (ty : string) (media : MediaTypeObject) (m : string)
    (pre : list BodyParser) (p : BodyParser) (post : list BodyParser) :
  operation_requestBody op = Some (RequestBodyObject content) →
  first_match type_is (request_content_type req) (effective_content content)
    ty media m →
  ext = pre ++ p :: post →
  supports p m = Returned true →
  let this := new_RequestBodyParser type_is json urlencoded text options ext in
  let result := loadRequestBodyIfNeeded type_is this op req in
  take (length ext) (parsers this) = ext
  ∧ parser_name <$> drop (length ext) (parsers this)
      = [Some "json"; Some "urlencoded"; Some "text"]
  ∧ (∀ j, EvParse j ∈ st_trace result.2 → (j < length ext)%nat)
  ∧ (Forall (λ q, supports q m = Returned false) pre →
       filter (λ ev, is_parse_event ev = true) (st_trace result.2)
         = [EvParse (length pre)]
       ∧ parsers this !! length pre = Some p
       ∧ result.1 =
           match parser_parse p req with
           | (Returned res, _) => Returned (res ∪ recorded_result ty media)
           | (Thrown err, _) => Thrown (normalizeParsingError err)
           end).
Proof.
  intros Hop Hmatch Hext Hsup this result.
  destruct (load_after_match type_is this op req content ty media m Hop Hmatch)
    as (evs & Hevs & Hmevs & Hload).
  assert (parsers this = ext ++ drop (length ext) (parsers this)) as Hreg.
  { unfold this, new_RequestBodyParser. cbn [parsers].
    by rewrite drop_app_length. }
  split; [by (unfold this, new_RequestBodyParser; cbn [parsers];
              rewrite take_app_length)|].
  split; [by (unfold this, new_RequestBodyParser; cbn [parsers];
              rewrite drop_app_length)|].
  split.
  - intros j Hj. unfold result in Hj. rewrite Hload in Hj.
    destruct (select_and_parse_invoked (parsers this) m
                (recorded_result ty media)
                {| st_request := req; st_trace := evs |})
      as (sel & Htr & _ & _ & Hinv).
    assert (EvParse j ∈ evs ++ sel) as [Hin | Hin]%elem_of_app.
    { destruct (select_and_parse _ _ _ _ _) as [[res|err|] st'];
        cbn in Htr, Hj; by rewrite <- Htr. }
    + rewrite Forall_forall in Hevs. by apply Hevs in Hin.
    + destruct (Hinv j Hin) as (pre' & q & post' & Hps & Hlen & Hpre' & Hq).
      destruct (decide (j < length ext)%nat) as [|Hge]; [done|exfalso].
      assert (parsers this !! length pre = Some p) as Hp.
      { rewrite Hreg, Hext, <- app_assoc. cbn. by apply list_lookup_middle. }
      rewrite Hps, lookup_app_l in Hp.
      2:{ rewrite Hext, length_app in Hge. cbn in Hge. lia. }
      rewrite Forall_forall in Hpre'.
      apply list_elem_of_lookup_2, Hpre' in Hp. congruence.
  - intros Hpre.
    assert (parsers this
            = pre ++ p :: (post ++ drop (length ext) (parsers this))) as Hps
      by (by rewrite Hreg at 1; rewrite Hext, <- app_assoc).
    unfold result. rewrite Hload, Hps, select_and_parse_selected by done.
    cbn zeta. cbn [st_request].
    split; [|split].
    + assert (filter (λ ev, is_parse_event ev = true)
                (evs ++ supports_events m 0 (S (length pre))
                   ++ [EvParse (0 + length pre)]) = [EvParse (length pre)])
        as Hfilter.
      { rewrite !filter_app.
        pose proof (supports_events_no_parse m 0 (S (length pre))) as Hno.
        assert (∀ l, Forall (λ ev, is_parse_event ev = false) l →
                  filter (λ ev, is_parse_event ev = true) l = []) as Hnil.
        { intros l Hl. apply length_zero_iff_nil.
          by apply parse_invocations_no_parse. }
        rewrite !Hnil by done. rewrite filter_cons_True by done.
        by rewrite filter_nil. }
      by destruct (parser_parse p req) as [[res|err] r].
    + by apply list_lookup_middle.
    + by destruct (parser_parse p req) as [[res|err] r].
Qed.

Lemma C4_extensions_take_priority_witness :
  let req := Sample.request (Some "application/json") "{}" in
  let result := Sample.load ∅ [Sample.custom_json] Sample.json_operation req in
  supports_pattern Sample.type_is "json" "application/json" = Returned true
  ∧ filter (λ ev, is_parse_event ev = true) (st_trace result.2) = [EvParse 0]
  ∧ result.1 = Returned {[ "value" := VStr "custom";
                           "mediaType" := VStr "application/json";
                           "schema" := Sample.object_schema ]}.
Proof.
  cbn zeta. split; [reflexivity|].
  destruct (C4_extensions_take_priority Sample.type_is
              Sample.handle Sample.handle Sample.handle ∅ [Sample.custom_json]
              Sample.json_operation
              (Sample.request (Some "application/json") "{}")
              (Some [("application/json",
                      {| schema := Some Sample.object_schema |})])
              "application/json" {| schema := Some Sample.object_schema |}
              "application/json" [] Sample.custom_json [])
    as (_ & _ & _ & Hsel).
  - reflexivity.
  - exists [], []. split; [reflexivity | split; [constructor | reflexivity]].
  - reflexivity.
  - reflexivity.
  - destruct (Hsel ltac:(constructor)) as (Hfilter & _ & Hres).
    split; [exact Hfilter|].
    etransitivity; [exact Hres|]. vm_compute. reflexivity.
Defined.

(** Claim C5. In every call at most one [parse] is invoked, and a [parse]
    invocation is the last call the orchestrator makes: after it, whether it
    succeeds or fails, no capability check and no other [parse] follows. *)
Theorem C5_at_most_one_parse
    (type_is : string → string → option string) (this : RequestBodyParser)
    (op : OperationObject) (req : Request) :
  let tr := st_trace (loadRequestBodyIfNeeded type_is this op req).2 in
  (parse_invocations tr ≤ 1)%nat ∧ parse_is_last tr = true.
Proof.
  cbn zeta. unfold loadRequestBodyIfNeeded.
  destruct (operation_requestBody op) as [[ref|content]|];
    [cbn; split; [lia|done] | | cbn; split; [lia|done]].
  - set (ct := or_string (getContentType req) "application/json").
    set (st0 := {| st_request := req; st_trace := [] |}).
    set (rb0 := ({[ "value" := VUndefined ]} : JsObj)).
    destruct (match_content_state type_is ct (effective_content content)
                rb0 st0) as (evs & Hst & Hevs & _).
    destruct (match_content _ _ _ _ _) as [[[m|] rb] st1]; cbn in Hst;
      subst st1; cbn [st_trace app].
    + destruct (select_and_parse_invoked (parsers this) m rb
                  {| st_request := req; st_trace := evs |})
        as (sel & Htr & Hlast & Hcount & _).
      assert (st_trace
                (match select_and_parse 0 (parsers this) m rb
                         {| st_request := req; st_trace := evs |} with
                 | (LoopReturn result, st) => (Returned result, st)
                 | (LoopThrow err, st) =>
                     (Thrown (normalizeParsingError err), st)
                 | (LoopEnd, st) =>
                     (Thrown (UnsupportedMediaType
                        ("Content-type " +:+ m +:+ " is not supported.")), st)
                 end).2 = evs ++ sel) as ->.
      { by destruct (select_and_parse _ _ _ _ _) as [[res|err|] st']. }
      split; [|by apply parse_is_last_app].
      rewrite parse_invocations_app, parse_invocations_no_parse by done. lia.
    + split; [|by apply parse_is_last_no_parse].
      rewrite parse_invocations_no_parse by done. lia.
Qed.

(** What [parse_is_last] says: nothing follows a [parse] invocation. *)
Lemma parse_is_last_spec tr pre j post :
  parse_is_last tr = true → tr = pre ++ EvParse j :: post → post = [].
Proof.
  revert tr. induction pre as [|ev pre IH]; intros tr Hlast ->; cbn in Hlast.
  - apply andb_true_iff in Hlast as [Hpost _].
    by apply bool_decide_eq_true in Hpost.
  - apply andb_true_iff in Hlast as [_ Hrest]. by eapply IH.
Qed.

(** Claim C6. When the content type of the request (['application/json'] if
    the header is absent) matches none of the effective declared types, the
    call fails with the 415 error whose message holds that content type and
    the comma-separated list of all declared types; the orchestrator has only
    called the matcher, no capability check and no [parse]. *)
Theorem C6_no_declared_type_matches
    (type_is : string → string → option string) (this : RequestBodyParser)
    (op : OperationObject) (req : Request) (content : option Content) :
  operation_requestBody op = Some (RequestBodyObject content) →
  Forall (λ ty, truthy_match (type_is (request_content_type req) ty) = None)
    ((effective_content content).*1) →
  let result := loadRequestBodyIfNeeded type_is this op req in
  result.1 = Thrown
    {| name := "UnsupportedMediaTypeError";
       message := "Content-type " +:+ request_content_type req
                    +:+ " does not match ["
                    +:+ String.concat "," ((effective_content content).*1)
                    +:+ "].";
       statusCode := Some 415 |}
  ∧ st_request result.2 = req
  ∧ parse_invocations (st_trace result.2) = 0%nat
  ∧ Forall (λ ev, is_match_event ev = true) (st_trace result.2).
Proof.
  intros Hop Hnone. cbn zeta. unfold loadRequestBodyIfNeeded. rewrite Hop.
  fold (request_content_type req).
  set (st0 := {| st_request := req; st_trace := [] |}).
  pose proof (match_content_none type_is _ _
                ({[ "value" := VUndefined ]} : JsObj) st0 Hnone) as H1.
  destruct (match_content_state type_is (request_content_type req)
              (effective_content content) {[ "value" := VUndefined ]} st0)
    as (evs & H2 & Hp & Hm).
  destruct (match_content _ _ _ _ _) as [[mm rb] st1].
  cbn in H1, H2. injection H1 as -> ->. subst st1. cbn.
  repeat split; try done. by apply parse_invocations_no_parse.
Qed.

Lemma C6_no_declared_type_matches_witness :
  (Sample.load ∅ [] Sample.json_operation
     (Sample.request (Some "text/plain") "hello")).1
  = Thrown
      {| name := "UnsupportedMediaTypeError";
         message := "Content-type text/plain does not match [application/json].";
         statusCode := Some 415 |}.
Proof.
  refine (proj1 (C6_no_declared_type_matches Sample.type_is
                   (Sample.parser ∅ []) Sample.json_operation
                   (Sample.request (Some "text/plain") "hello")
                   (Some [("application/json",
                           {| schema := Some Sample.object_schema |})])
                   _ _)).
  - reflexivity.
  - repeat constructor.
Defined.

(** Claim C7, as the code has it. When a declared type [ty] matches, the
    matcher answering [m], and every entry of the registry declines [m], the
    call fails with the 415 error whose message is
    ['Content-type <m> is not supported.']: it names [m], the matcher's
    answer that was passed to every capability check, and neither the list
    of declared types nor, unless the matcher answers the pattern itself,
    the declared type [ty]; no [parse] is invoked and the request is
    untouched. *)
Theorem C7_no_parser_supports_matched_type
    (type_is : string → string → option string) (this : RequestBodyParser)
    (op : OperationObject) (req : Request) (content : option Content)
    (ty : string) (media : MediaTypeObject) (m : string) :
  operation_requestBody op = Some (RequestBodyObject content) →
  first_match type_is (request_content_type req) (effective_content content)
    ty media m →
  Forall (λ q, supports q m = Returned false) (parsers this) →
  let result := loadRequestBodyIfNeeded type_is this op req in
  result.1 = Thrown
    {| name := "UnsupportedMediaTypeError";
       message := "Content-type " +:+ m +:+ " is not supported.";
       statusCode := Some 415 |}
  ∧ st_request result.2 = req
  ∧ parse_invocations (st_trace result.2) = 0%nat.
Proof.
  intros Hop Hmatch Hall.
  destruct (load_after_match type_is this op req content ty media m Hop Hmatch)
    as (evs & Hevs & _ & Hload).
  cbn zeta. rewrite Hload, select_and_parse_end by done.
  cbn [fst snd st_trace st_request].
  split; [done|]. split; [done|].
  rewrite parse_invocations_app, !parse_invocations_no_parse; try done.
  apply supports_events_no_parse.
Qed.

Lemma C7_no_parser_supports_matched_type_witness :
  let op :=
    {| operation_requestBody :=
         Some (RequestBodyObject
                 (Some [("application/json", {| schema := None |});
                        ("application/xml", {| schema := None |})])) |} in
  (Sample.load ∅ [] op (Sample.request (Some "application/xml") "<a/>")).1
  = Thrown
      {| name := "UnsupportedMediaTypeError";
         message := "Content-type application/xml is not supported.";
         statusCode := Some 415 |}.
Proof.
  refine (proj1 (C7_no_parser_supports_matched_type Sample.type_is
                   (Sample.parser ∅ [])
                   {| operation_requestBody :=
                        Some (RequestBodyObject
                          (Some [("application/json", {| schema := None |});
                                 ("application/xml", {| schema := None |})])) |}
                   (Sample.request (Some "application/xml") "<a/>")
                   (Some [("application/json", {| schema := None |});
                          ("application/xml", {| schema := None |})])
                   "application/xml" {| schema := None |} "application/xml"
                   _ _ _)).
  - reflexivity.
  - exists [("application/json", {| schema := None |})], [].
    split; [reflexivity | split; [repeat constructor | reflexivity]].
  - repeat constructor.
Defined.

(** Claim C7, as stated, fails for a declared wildcard type: the request
    [application/xml] matches the declared [application/*], for which the
    matcher answers the request's own type; no entry supports it, and the
    message of the 415 names [application/xml], the declared pattern
    [application/*] occurring nowhere in it. *)
Lemma C7_counterexample_message_names_matcher_answer :
  let content : Content := [("application/*", {| schema := None |})] in
  let op :=
    {| operation_requestBody := Some (RequestBodyObject (Some content)) |} in
  let req := Sample.request (Some "application/xml") "<a/>" in
  first_match Sample.type_is (request_content_type req)
    (effective_content (Some content))
    "application/*" {| schema := None |} "application/xml"
  ∧ Forall (λ q, supports q "application/xml" = Returned false)
      (parsers (Sample.parser ∅ []))
  ∧ ∃ err,
      (Sample.load ∅ [] op req).1 = Thrown err
      ∧ statusCode err = Some 415
      ∧ message err = "Content-type application/xml is not supported."
      ∧ String.index 0 "application/*" (message err) = None
      ∧ String.index 0 "application/xml" (message err) = Some 13%nat.
Proof.
  cbn zeta. split; [|split].
  - exists [], []. split; [reflexivity | split; [constructor | reflexivity]].
  - repeat constructor.
  - eexists. split; [vm_compute; reflexivity|]. by vm_compute.
Qed.

(** Claim C8. A request body whose [content] is absent or empty is resolved
    exactly as one whose [content] is the two default entries, and this is
    what all three do. The matcher is asked about [application/json] first
    and, only if it declines, about [application/x-www-form-urlencoded]. The
    first of the two it accepts is recorded as [mediaType] together with the
    schema [{type: 'object'}], and the registry loop runs on the matcher's
    answer with that recorded object: the first entry that accepts it parses,
    and its result is laid over the recorded object. If the matcher declines
    both, the call fails with the 415 that lists the two default types. *)
Theorem C8_empty_content_defaults
    (type_is : string → string → option string) (this : RequestBodyParser)
    (req : Request) :
  let ct := request_content_type req in
  let object_schema := VObj {[ "type" := VStr "object" ]} in
  let defaults : Content :=
    [ ("application/json", {| schema := Some object_schema |});
      ("application/x-www-form-urlencoded",
        {| schema := Some object_schema |}) ] in
  let load content :=
    loadRequestBodyIfNeeded type_is this
      {| operation_requestBody := Some (RequestBodyObject content) |} req in
  let recorded (ty : string) : JsObj :=
    {[ "value" := VUndefined; "mediaType" := VStr ty;
       "schema" := object_schema ]} in
  let parsing (m ty : string) (calls : list Event) :=
    match select_and_parse 0 (parsers this) m (recorded ty)
            {| st_request := req; st_trace := calls |} with
    | (LoopReturn result, st) => (Returned result, st)
    | (LoopThrow err, st) => (Thrown (normalizeParsingError err), st)
    | (LoopEnd, st) =>
        (Thrown {| name := "UnsupportedMediaTypeError";
                   message := "Content-type " +:+ m +:+ " is not supported.";
                   statusCode := Some 415 |}, st)
    end in
  let expected :=
    match truthy_match (type_is ct "application/json") with
    | Some m => parsing m "application/json" [EvMatch ct "application/json"]
    | None =>
        match truthy_match (type_is ct "application/x-www-form-urlencoded") with
        | Some m =>
            parsing m "application/x-www-form-urlencoded"
              [EvMatch ct "application/json";
               EvMatch ct "application/x-www-form-urlencoded"]
        | None =>
            (Thrown
               {| name := "UnsupportedMediaTypeError";
                  message :=
                    "Content-type " +:+ ct +:+
                    " does not match [application/json,application/x-www-form-urlencoded].";
                  statusCode := Some 415 |},
             {| st_request := req;
                st_trace := [EvMatch ct "application/json";
                             EvMatch ct "application/x-www-form-urlencoded"] |})
        end
    end in
  load None = expected
  ∧ load (Some []) = expected
  ∧ load (Some defaults) = expected
  ∧ (∀ m ty pre p post,
       (truthy_match (type_is ct "application/json") = Some m
        ∧ ty = "application/json")
       ∨ (truthy_match (type_is ct "application/json") = None
          ∧ truthy_match (type_is ct "application/x-www-form-urlencoded")
            = Some m
          ∧ ty = "application/x-www-form-urlencoded") →
       first_candidate (parsers this) m pre p post →
       supports p m = Returned true →
       (load None).1 =
         match parser_parse p req with
         | (Returned res, _) => Returned (res ∪ recorded ty)
         | (Thrown err, _) => Thrown (normalizeParsingError err)
         end
       ∧ (load None).2.(st_request) = (parser_parse p req).2
       ∧ filter (λ ev, is_parse_event ev = true) (load None).2.(st_trace)
         = [EvParse (length pre)]).
Proof.
  intros ct object_schema defaults load recorded parsing expected.
  assert (load None = expected) as Hnone.
  { unfold load, expected, loadRequestBodyIfNeeded.
    cbn [operation_requestBody effective_content default fmap list_fmap
         length Nat.eqb match_content].
    fold (request_content_type req). fold ct.
    destruct (truthy_match (type_is ct "application/json")) as [m|];
      [reflexivity|].
    destruct (truthy_match (type_is ct "application/x-www-form-urlencoded"))
      as [m|]; reflexivity. }
  split; [done|]. split; [done|]. split; [done|].
  intros m ty pre p post Hcase [Hps Hpre] Hsup. rewrite Hnone.
  assert (expected = parsing m ty
            match truthy_match (type_is ct "application/json") with
            | Some _ => [EvMatch ct "application/json"]
            | None => [EvMatch ct "application/json";
                       EvMatch ct "application/x-www-form-urlencoded"]
            end) as ->.
  { unfold expected.
    destruct Hcase as [[-> ->] | (-> & -> & ->)]; reflexivity. }
  unfold parsing. rewrite Hps, select_and_parse_selected by done.
  cbn zeta. cbn [st_request st_trace].
  assert (∀ calls,
            Forall (λ ev, is_parse_event ev = false) calls →
            filter (λ ev, is_parse_event ev = true)
              (calls ++ supports_events m 0 (S (length pre))
                 ++ [EvParse (0 + length pre)]) = [EvParse (length pre)])
    as Hfilter.
  { intros calls Hcalls. rewrite !filter_app.
    pose proof (supports_events_no_parse m 0 (S (length pre))) as Hno.
    assert (∀ l, Forall (λ ev, is_parse_event ev = false) l →
              filter (λ ev, is_parse_event ev = true) l = []) as Hnil.
    { intros l Hl. apply length_zero_iff_nil.
      by apply parse_invocations_no_parse. }
    rewrite !Hnil by done. rewrite filter_cons_True by done.
    by rewrite filter_nil. }
  destruct (parser_parse p req) as [[res|err] r]; cbn [fst snd st_request st_trace];
    (split; [done|]; split; [done|]); apply Hfilter;
    destruct (truthy_match (type_is ct "application/json"));
    by repeat constructor.
Qed.

Lemma C8_empty_content_defaults_witness :
  (loadRequestBodyIfNeeded Sample.type_is (Sample.parser ∅ [])
     {| operation_requestBody := Some (RequestBodyObject None) |}
     (Sample.request (Some "application/json") "{}")).1
  = Returned {[ "value" := VStr "{}"; "mediaType" := VStr "application/json";
                "schema" := VObj {[ "type" := VStr "object" ]} ]}.
Proof.
  destruct (C8_empty_content_defaults Sample.type_is (Sample.parser ∅ [])
              (Sample.request (Some "application/json") "{}"))
    as (_ & _ & _ & Hsel).
  destruct (Hsel "application/json" "application/json" []
              {| parser_name := Some "json";
                 supports := supports_pattern Sample.type_is "json";
                 parser_parse :=
                   parseJsonBody (Sample.handle (effective_options TJson ∅)) |}
              [ {| parser_name := Some "urlencoded";
                   supports := supports_pattern Sample.type_is "urlencoded";
                   parser_parse :=
                     parseUrlencodedBody
                       (Sample.handle (effective_options TUrlencoded ∅)) |};
                {| parser_name := Some "text";
                   supports := supports_pattern Sample.type_is "text/*";
                   parser_parse :=
                     parseTextBody
                       (Sample.handle (effective_options TText ∅)) |} ])
    as (Hout & _).
  - left. split; reflexivity.
  - split; [reflexivity | constructor].
  - reflexivity.
  - etransitivity; [exact Hout|]. vm_compute. reflexivity.
Defined.

(** Claim C9. A request body that is a reference is rejected with the plain
    error ['$ref requestBody is not supported yet.'], which has no status
    code and is not normalized; the matcher has not been called, nor any
    capability check or [parse], and the request is untouched. *)
Theorem C9_reference_rejected
    (type_is : string → string → option string) (this : RequestBodyParser)
    (ref : string) (req : Request) :
  loadRequestBodyIfNeeded type_is this
    {| operation_requestBody := Some (ReferenceObject ref) |} req
  = (Thrown {| name := "Error";
               message := "$ref requestBody is not supported yet.";
               statusCode := None |},
     {| st_request := req; st_trace := [] |}).
Proof. reflexivity. Qed.


(** ** Further properties of the error normalizer *)

(** Property X2. Normalizing twice is normalizing once, and the errors that
    the normalizer leaves as they are are exactly those whose status code is
    present, not [0] and below 500 (so a 404 or a 304 passes unchanged, and a
    status code [0] becomes 400 like an absent one). *)
Theorem X2_normalizeParsingError_fixpoints (err : JsError) :
  normalizeParsingError (normalizeParsingError err) = normalizeParsingError err
  ∧ (normalizeParsingError err = err
     ↔ ∃ c, statusCode err = Some c ∧ c ≠ 0 ∧ c < 500).
Proof.
  split; [apply normalizeParsingError_idemp|]. split.
  - intros Heq. rewrite <- Heq. apply normalizeParsingError_below_500.
  - intros (c & Hc & Hz & Hlt). unfold normalizeParsingError. rewrite Hc. cbn.
    destruct (Z.eqb_spec c 0); [lia|]. destruct (Z.leb_spec 500 c); [lia|].
    done.
Qed.

(** ** Further properties of the option resolver *)

(** Property X4. None of the keys [json], [urlencoded], [text] reaches a
    built-in parser, whatever the shared object and the format's own
    sub-object contain: a sub-object that itself has such a key loses it
    too. *)
Theorem X4_format_keys_never_passed (t : ParserType) (options : JsObj) :
  getParserOptions t options !! "json" = None
  ∧ getParserOptions t options !! "urlencoded" = None
  ∧ getParserOptions t options !! "text" = None
  ∧ effective_options t options !! "json" = None
  ∧ effective_options t options !! "urlencoded" = None
  ∧ effective_options t options !! "text" = None.
Proof.
  repeat split;
    first [ by apply getParserOptions_lookup_format_key
          | by apply effective_options_no_format_key ].
Qed.

(** Property X5. The options of one format do not depend on the sub-object
    of another format: setting or removing [options[t']] changes nothing for
    the parser of a different format [t]. *)
Theorem X5_other_format_is_ignored
    (t t' : ParserType) (v : JsVal) (options : JsObj) :
  t ≠ t' →
  getParserOptions t (<[ type_key t' := v ]> options) = getParserOptions t options
  ∧ effective_options t (<[ type_key t' := v ]> options)
      = effective_options t options
  ∧ effective_options t (delete (type_key t') options)
      = effective_options t options.
Proof.
  intros Hne.
  assert (type_key t ≠ type_key t') as Hkey by (by destruct t, t').
  assert (is_format_key (type_key t') = true) as Hfmt by (by destruct t').
  assert (∀ options', get options' (type_key t) = get options (type_key t) →
            (∀ k, k ≠ type_key t' → options' !! k = options !! k) →
            getParserOptions t options' = getParserOptions t options) as Hsame.
  { intros options' Hget Hother. apply map_eq. intros k.
    destruct (is_format_key k) eqn:Hk.
    - by rewrite !getParserOptions_lookup_format_key.
    - rewrite !getParserOptions_lookup_other, Hget by done.
      rewrite Hother; [done|]. intros ->. congruence. }
  assert (getParserOptions t (<[ type_key t' := v ]> options)
          = getParserOptions t options) as Hins.
  { apply Hsame.
    - unfold get. by rewrite lookup_insert_ne.
    - intros k Hk. by rewrite lookup_insert_ne. }
  assert (getParserOptions t (delete (type_key t') options)
          = getParserOptions t options) as Hdel.
  { apply Hsame.
    - unfold get. by rewrite lookup_delete_ne.
    - intros k Hk. by rewrite lookup_delete_ne. }
  unfold effective_options. by rewrite Hins, Hdel.
Qed.

Lemma X5_other_format_is_ignored_witness :
  effective_options TJson
    (<[ "text" := VObj {[ "limit" := VStr "2mb" ]} ]>
       {[ "json" := VObj {[ "strict" := VBool false ]} ]})
  = effective_options TJson {[ "json" := VObj {[ "strict" := VBool false ]} ]}.
Proof.
  refine (proj1 (proj2 (X5_other_format_is_ignored TJson TText
            (VObj {[ "limit" := VStr "2mb" ]})
            {[ "json" := VObj {[ "strict" := VBool false ]} ]} _))).
  discriminate.
Defined.

(** Property X6. For a key that the shared object does not define (and that
    is not a format name), the built-in parser of format [t] receives the
    value of the format's own sub-object if that defines it, and the
    hard-coded default otherwise; so [options.json.limit] replaces the
    default ['1mb'] and [options.text.type] replaces ['text/*']. *)
Theorem X6_format_option_over_default
    (t : ParserType) (options : JsObj) (k : string) :
  is_format_key k = false →
  options !! k = None →
  effective_options t options !! k =
    match get options (type_key t) with
    | VObj specific =>
        match specific !! k with
        | Some v => Some v
        | None => default_options t !! k
        end
    | _ => default_options t !! k
    end.
Proof.
  intros Hk Hshared. by rewrite effective_options_lookup, Hshared.
Qed.

Lemma X6_format_option_over_default_witness :
  effective_options TJson {[ "json" := VObj {[ "limit" := VStr "5mb" ]} ]}
    !! "limit" = Some (VStr "5mb").
Proof.
  refine (X6_format_option_over_default TJson
            {[ "json" := VObj {[ "limit" := VStr "5mb" ]} ]} "limit" _ _).
  - reflexivity.
  - reflexivity.
Defined.

(** ** Further properties of the two loops and of the orchestrator *)

Section MoreLoops.

Variable type_is : string → string → option string.

(** The exact state after a successful type-matching loop: the matcher has
    been asked about the keys up to the matching one, in order. *)
Lemma match_content_first_state ct pre ty media post rb st m :
  Forall (λ ty', truthy_match (type_is ct ty') = None) (pre.*1) →
  truthy_match (type_is ct ty) = Some m →
  match_content type_is ct (pre ++ (ty, media) :: post) rb st =
    (Some m,
     <[ "schema" := default VUndefined (schema media) ]>
       (<[ "mediaType" := VStr ty ]> rb),
     {| st_request := st_request st;
        st_trace := st_trace st ++ (EvMatch ct <$> (pre.*1 ++ [ty])) |}).
Proof.
  intros Hpre Hm. revert st.
  induction pre as [|[ty' media'] pre IH]; intros st; cbn.
  - by rewrite Hm.
  - apply Forall_cons in Hpre as [Hty' Hpre]. cbn in Hty'. rewrite Hty'.
    rewrite IH by done. cbn. by rewrite <- app_assoc.
Qed.

(** The orchestrator on a request body that is not a reference. *)
Lemma load_body_object this op req content :
  operation_requestBody op = Some (RequestBodyObject content) →
  loadRequestBodyIfNeeded type_is this op req =
    let '(matched, rb, st) :=
      match_content type_is (request_content_type req)
        (effective_content content) initial_result
        {| st_request := req; st_trace := [] |} in
    match matched with
    | None =>
        (Thrown (UnsupportedMediaType
           ("Content-type " +:+ request_content_type req
              +:+ " does not match ["
              +:+ keys_to_string (effective_content content) +:+ "].")), st)
    | Some m =>
        match select_and_parse 0 (parsers this) m rb st with
        | (LoopReturn result, st) => (Returned result, st)
        | (LoopThrow err, st) => (Thrown (normalizeParsingError err), st)
        | (LoopEnd, st) =>
            (Thrown (UnsupportedMediaType
               ("Content-type " +:+ m +:+ " is not supported.")), st)
        end
    end.
Proof. intros Hop. unfold loadRequestBodyIfNeeded. by rewrite Hop. Qed.

End MoreLoops.

(** A value returned from inside the registry loop is a parse result laid
    over the recorded object. *)
Lemma select_and_parse_return i ps m rb st res st' :
  select_and_parse i ps m rb st = (LoopReturn res, st') →
  ∃ parsed, res = parsed ∪ rb.
Proof.
  revert i st. induction ps as [|p ps IH]; intros i st; cbn; [done|].
  destruct (supports p m) as [[]|err]; [| by apply IH | done].
  destruct (parser_parse p _) as [[parsed|err] r]; [|done].
  intros [= <- _]. by exists parsed.
Qed.

(** The registry loop leaves the request alone unless it invokes a parser. *)
Lemma select_and_parse_frame ps m rb st :
  (select_and_parse 0 ps m rb st).2.(st_request) = st_request st
  ∨ ∃ j, EvParse j ∈ (select_and_parse 0 ps m rb st).2.(st_trace).
Proof.
  destruct (select_and_parse_cases ps m)
    as [Hall | [(pre & p & post & -> & Hpre & Hp)
             | (pre & p & post & err & -> & Hpre & Hp)]].
  - left. by rewrite select_and_parse_end.
  - right. exists (length pre).
    rewrite select_and_parse_selected by done. cbn zeta.
    destruct (parser_parse p _) as [[|] ?]; cbn; set_solver.
  - left. by rewrite (select_and_parse_supports_throws _ _ _ _ _ _ _ err).
Qed.

Lemma parse_invocations_elem tr j :
  EvParse j ∈ tr → parse_invocations tr ≠ 0%nat.
Proof.
  intros Hin Hzero. unfold parse_invocations in Hzero.
  apply length_zero_iff_nil in Hzero.
  assert (EvParse j ∈ filter (λ ev, is_parse_event ev = true) tr) as Hf
    by (by apply list_elem_of_filter).
  rewrite Hzero in Hf. by apply not_elem_of_nil in Hf.
Qed.

(** Property X1. With no request body in the operation the call returns
    [{value: undefined}] and makes no call at all; with a request body that
    is not a reference the matcher is always consulted, first about the first
    declared type (the first default when [content] is absent or empty). *)
Theorem X1_no_body_no_calls
    (type_is : string → string → option string) (this : RequestBodyParser)
    (op : OperationObject) (req : Request) :
  let result := loadRequestBodyIfNeeded type_is this op req in
  match operation_requestBody op with
  | None =>
      result = (Returned {[ "value" := VUndefined ]},
                {| st_request := req; st_trace := [] |})
  | Some (ReferenceObject _) => st_trace result.2 = []
  | Some (RequestBodyObject content) =>
      ∃ rest,
        st_trace result.2 =
          EvMatch (request_content_type req)
            (default "application/json" (head ((default [] content).*1)))
          :: rest
  end.
Proof.
  cbn zeta. destruct (operation_requestBody op) as [[ref|content]|] eqn:Hop.
  - unfold loadRequestBodyIfNeeded. by rewrite Hop.
  - rewrite (load_body_object type_is this op req content Hop).
    assert (∃ ty media rest, effective_content content = (ty, media) :: rest
              ∧ ty = default "application/json"
                       (head ((default [] content).*1)))
      as (ty & media & rest & -> & <-).
    { destruct content as [[|[ty media] rest]|]; cbn; eauto. }
    cbn [match_content].
    set (st1 := log (EvMatch (request_content_type req) ty) _).
    assert (∀ st, st_trace st1 `prefix_of` st_trace st →
              ∃ rest', st_trace st = EvMatch (request_content_type req) ty
                                       :: rest') as Hstart.
    { intros st [k ->]. cbn. eauto. }
    assert (∀ m rb st, st_trace st1 `prefix_of` st_trace st →
              st_trace st1 `prefix_of`
                st_trace (select_and_parse 0 (parsers this) m rb st).2)
      as Hsel.
    { intros m rb st Hpre.
      destruct (select_and_parse_invoked (parsers this) m rb st)
        as (sel & -> & _). by apply prefix_app_r. }
    destruct (truthy_match _) as [m|].
    + apply Hstart.
      specialize (Hsel m
        (<[ "schema" := default VUndefined (schema media) ]>
           (<[ "mediaType" := VStr ty ]> initial_result)) st1
        (reflexivity _)).
      by destruct (select_and_parse _ _ _ _ _) as [[res|err|] st'].
    + destruct (match_content_state type_is (request_content_type req) rest
                  initial_result st1) as (evs & Hst & _).
      destruct (match_content _ _ _ _ _) as [[[m|] rb] st2]; cbn [snd] in Hst;
        subst st2.
      * apply Hstart.
        specialize (Hsel m rb
          {| st_request := st_request st1; st_trace := st_trace st1 ++ evs |}
          (prefix_app_r _ _ _ (reflexivity _))).
        by destruct (select_and_parse _ _ _ _ _) as [[res|err|] st'].
      * apply Hstart. cbn [snd st_trace]. by apply prefix_app_r.
  - unfold loadRequestBodyIfNeeded. by rewrite Hop.
Qed.

(** Property X3. Whenever the request body is not a reference, every error
    the call throws carries a status code, and that code is never [0] and
    always below 500: it is the 415 of one of the two media-type failures or
    a normalized error. Only the rejection of a reference has no status
    code. *)
Theorem X3_thrown_status_below_500
    (type_is : string → string → option string) (this : RequestBodyParser)
    (op : OperationObject) (req : Request) (content : option Content)
    (err : JsError) :
  operation_requestBody op = Some (RequestBodyObject content) →
  (loadRequestBodyIfNeeded type_is this op req).1 = Thrown err →
  ∃ c, statusCode err = Some c ∧ c ≠ 0 ∧ c < 500.
Proof.
  intros Hop. rewrite (load_body_object type_is this op req content Hop).
  destruct (match_content _ _ _ _ _) as [[[m|] rb] st1].
  - destruct (select_and_parse _ _ _ _ _) as [[res|e|] st']; cbn.
    + done.
    + intros [= <-]. apply normalizeParsingError_below_500.
    + intros [= <-]. exists 415. cbn. split; [done|lia].
  - cbn. intros [= <-]. exists 415. cbn. split; [done|lia].
Qed.

Lemma X3_thrown_status_below_500_witness :
  ∃ c, statusCode
         {| name := "PayloadError"; message := "cannot read";
            statusCode := Some 400 |} = Some c ∧ c ≠ 0 ∧ c < 500.
Proof.
  refine (X3_thrown_status_below_500 Sample.type_is
            (Sample.parser ∅ [Sample.failing (Some 503)])
            Sample.json_operation (Sample.request None "{}")
            (Some [("application/json",
                    {| schema := Some Sample.object_schema |})])
            _ _ _).
  - reflexivity.
  - reflexivity.
Defined.

(** Property X10. The orchestrator itself never changes the request: when
    the call ends without a [parse] invocation (no body, a reference, either
    415, a capability check that throws) the request is the one received. *)
Theorem X10_request_untouched_without_parse
    (type_is : string → string → option string) (this : RequestBodyParser)
    (op : OperationObject) (req : Request) :
  let result := loadRequestBodyIfNeeded type_is this op req in
  parse_invocations (st_trace result.2) = 0%nat →
  st_request result.2 = req.
Proof.
  cbn zeta. destruct (operation_requestBody op) as [[ref|content]|] eqn:Hop.
  - unfold loadRequestBodyIfNeeded. by rewrite Hop.
  - rewrite (load_body_object type_is this op req content Hop).
    destruct (match_content_state type_is (request_content_type req)
                (effective_content content) initial_result
                {| st_request := req; st_trace := [] |})
      as (evs & Hst & _).
    destruct (match_content _ _ _ _ _) as [[[m|] rb] st1]; cbn [snd] in Hst;
      subst st1; [|done].
    set (st1 := {| st_request := _; st_trace := _ |}).
    destruct (select_and_parse_frame (parsers this) m rb st1)
      as [Hreq | [j Hj]].
    + by destruct (select_and_parse _ _ _ _ _) as [[res|e|] st'].
    + intros Hzero. exfalso.
      apply (parse_invocations_elem _ j) in Hzero; [done|].
      by destruct (select_and_parse _ _ _ _ _) as [[res|e|] st'].
  - unfold loadRequestBodyIfNeeded. by rewrite Hop.
Qed.

Lemma X10_request_untouched_without_parse_witness :
  st_request
    (Sample.load ∅ [Sample.broken None] Sample.json_operation
       (Sample.request (Some "application/json") "{}")).2
  = Sample.request (Some "application/json") "{}".
Proof.
  refine (X10_request_untouched_without_parse Sample.type_is
            (Sample.parser ∅ [Sample.broken None]) Sample.json_operation
            (Sample.request (Some "application/json") "{}") _).
  reflexivity.
Defined.

(** Property X12. Type matching is first-match in the enumeration order of
    [content]: the loop ends with [m] and a recorded object exactly when some
    declared type is the first one the matcher accepts, [m] being the
    matcher's answer for it and the recorded [mediaType] that declared type;
    it ends with [false] exactly when the matcher accepts no declared type,
    and then records nothing. *)
Theorem X12_type_matching_is_first_match
    (type_is : string → string → option string)
    (ct : string) (content : Content) (rb : JsObj) (st : State) :
  (∀ m rb',
     (match_content type_is ct content rb st).1 = (Some m, rb')
     ↔ ∃ ty media,
         first_match type_is ct content ty media m
         ∧ rb' = <[ "schema" := default VUndefined (schema media) ]>
                   (<[ "mediaType" := VStr ty ]> rb))
  ∧ ((match_content type_is ct content rb st).1.1 = None
     ↔ Forall (λ ty, truthy_match (type_is ct ty) = None) (content.*1))
  ∧ ((match_content type_is ct content rb st).1.1 = None →
     (match_content type_is ct content rb st).1.2 = rb).
Proof.
  split; [|split].
  - intros m rb'. split.
    + intros (pre & ty & media & post & Hc & Hpre & Hm & Hrb)%match_content_some.
      exists ty, media. split; [|done]. by exists pre, post.
    + intros (ty & media & (pre & post & -> & Hpre & Hm) & ->).
      by apply match_content_first.
  - split.
    + revert st. induction content as [|[ty media] rest IH]; intros st; cbn.
      * by constructor.
      * destruct (truthy_match (type_is ct ty)) as [m|] eqn:Hty; [done|].
        intros Hnone. constructor; [done|]. by eapply IH.
    + intros Hall. by rewrite match_content_none.
  - revert st. induction content as [|[ty media] rest IH]; intros st; cbn.
    + done.
    + destruct (truthy_match (type_is ct ty)) as [m|]; [done|]. apply IH.
Qed.

(** Property X13. Whenever a request body that is not a reference is
    resolved successfully, the result has the three fields [value],
    [mediaType] and [schema] (possibly with the value [undefined]), whatever
    the selected parser returned. *)
Theorem X13_result_fields_present
    (type_is : string → string → option string) (this : RequestBodyParser)
    (op : OperationObject) (req : Request) (content : option Content)
    (result : JsObj) :
  operation_requestBody op = Some (RequestBodyObject content) →
  (loadRequestBodyIfNeeded type_is this op req).1 = Returned result →
  is_Some (result !! "value") ∧ is_Some (result !! "mediaType")
  ∧ is_Some (result !! "schema").
Proof.
  intros Hop. rewrite (load_body_object type_is this op req content Hop).
  destruct (match_content _ _ _ _ _) as [[[m|] rb] st1] eqn:Hmatch; [|done].
  assert ((match_content type_is (request_content_type req)
             (effective_content content) initial_result
             {| st_request := req; st_trace := [] |}).1 = (Some m, rb)) as H1
    by (by rewrite Hmatch).
  apply match_content_some in H1 as (pre & ty & media & post & _ & _ & _ & ->).
  destruct (select_and_parse _ _ _ _ _) as [[res|e|] st'] eqn:Hsel; cbn;
    [|done..].
  intros [= <-].
  apply select_and_parse_return in Hsel as [parsed ->].
  assert (∀ k (o : JsObj), is_Some (o !! k) → is_Some ((parsed ∪ o) !! k))
    as Hkeep.
  { intros k o [v Hv]. rewrite lookup_union, Hv. by destruct (parsed !! k). }
  repeat split; apply Hkeep; unfold initial_result; by simplify_map_eq.
Qed.

Lemma X13_result_fields_present_witness :
  is_Some (({[ "value" := VStr "custom";
               "mediaType" := VStr "application/json";
               "schema" := Sample.object_schema ]} : JsObj) !! "value").
Proof.
  refine (proj1 (X13_result_fields_present Sample.type_is
            (Sample.parser ∅ [Sample.custom_json]) Sample.json_operation
            (Sample.request (Some "application/json") "{}")
            (Some [("application/json",
                    {| schema := Some Sample.object_schema |})])
            _ _ _)).
  - reflexivity.
  - vm_compute. reflexivity.
Defined.

(** The result of a built-in entry, field by field. *)
Lemma value_over_recorded (b : JsVal) ty media :
  ({[ "value" := b ]} : JsObj) ∪ recorded_result ty media
  = {[ "value" := b; "mediaType" := VStr ty;
       "schema" := default VUndefined (schema media) ]}.
Proof.
  unfold recorded_result, initial_result. apply map_eq. intros k.
  rewrite lookup_union.
  destruct (decide (k = "value")) as [->|]; [by simplify_map_eq|].
  destruct (decide (k = "mediaType")) as [->|]; [by simplify_map_eq|].
  destruct (decide (k = "schema")) as [->|]; by simplify_map_eq.
Qed.

Lemma coerced_value_over_recorded (b : JsVal) ty media :
  ({[ "value" := b; "coercionRequired" := VBool true ]} : JsObj)
    ∪ recorded_result ty media
  = {[ "value" := b; "coercionRequired" := VBool true;
       "mediaType" := VStr ty;
       "schema" := default VUndefined (schema media) ]}.
Proof.
  unfold recorded_result, initial_result. apply map_eq. intros k.
  rewrite lookup_union.
  destruct (decide (k = "value")) as [->|]; [by simplify_map_eq|].
  destruct (decide (k = "coercionRequired")) as [->|]; [by simplify_map_eq|].
  destruct (decide (k = "mediaType")) as [->|]; [by simplify_map_eq|].
  destruct (decide (k = "schema")) as [->|]; by simplify_map_eq.
Qed.

Lemma supports_pattern_accepts type_is pattern m a :
  truthy_match (type_is m pattern) = Some a →
  supports_pattern type_is pattern m = Returned true.
Proof.
  intros Ha. unfold supports_pattern. rewrite Ha.
  by rewrite bool_decide_eq_true_2.
Qed.

Lemma supports_pattern_declines type_is pattern m :
  truthy_match (type_is m pattern) = None →
  supports_pattern type_is pattern m = Returned false.
Proof.
  intros Ha. unfold supports_pattern. rewrite Ha.
  rewrite bool_decide_eq_false_2; [done|]. by intros [? ?].
Qed.

(** The outcome of the call is the outcome of the entry selected. *)
Lemma load_selected type_is this op req content ty media m pre p post :
  operation_requestBody op = Some (RequestBodyObject content) →
  first_match type_is (request_content_type req) (effective_content content)
    ty media m →
  first_candidate (parsers this) m pre p post →
  supports p m = Returned true →
  (loadRequestBodyIfNeeded type_is this op req).1 =
    match parser_parse p req with
    | (Returned res, _) => Returned (res ∪ recorded_result ty media)
    | (Thrown err, _) => Thrown (normalizeParsingError err)
    end
  ∧ st_request (loadRequestBodyIfNeeded type_is this op req).2
    = (parser_parse p req).2.
Proof.
  intros Hop Hmatch [Hps Hpre] Hsup.
  destruct (load_after_match type_is this op req content ty media m Hop Hmatch)
    as (evs & _ & _ & ->).
  rewrite Hps, select_and_parse_selected by done. cbn zeta. cbn [st_request].
  by destruct (parser_parse p req) as [[res|err] r].
Qed.

(** Property X7. End to end for the built-in JSON entry: when every
    externally supplied entry declines the matched type and the matcher
    accepts it for ['json'], the middleware created by [json] from the
    effective JSON options decides the call. If it calls back with an error,
    the caller receives that error normalized once; if it succeeds, the result
    is exactly [{value: request.body, mediaType, schema}], with the body the
    middleware left and without [coercionRequired]. The request is the one
    the middleware left. *)
Theorem X7_json_entry_end_to_end
    (type_is : string → string → option string)
    (json urlencoded text : JsObj → BodyParserWithCallback)
    (options : JsObj) (ext : list BodyParser)
    (op : OperationObject) (req : Request) (content : option Content)
    (ty : string) (media : MediaTypeObject) (m a : string) :
  operation_requestBody op = Some (RequestBodyObject content) →
  first_match type_is (request_content_type req) (effective_content content)
    ty media m →
  Forall (λ q, supports q m = Returned false) ext →
  truthy_match (type_is m "json") = Some a →
  let this := new_RequestBodyParser type_is json urlencoded text options ext in
  let result := loadRequestBodyIfNeeded type_is this op req in
  result.1 =
    match json (effective_options TJson options) req with
    | (Some err, _) => Thrown (normalizeParsingError err)
    | (None, r) =>
        Returned {[ "value" := body r; "mediaType" := VStr ty;
                    "schema" := default VUndefined (schema media) ]}
    end
  ∧ st_request result.2 = (json (effective_options TJson options) req).2.
Proof.
  intros Hop Hmatch Hext Hjson this result.
  destruct (load_selected type_is this op req content ty media m ext
              {| parser_name := Some "json";
                 supports := supports_pattern type_is "json";
                 parser_parse :=
                   parseJsonBody (json (effective_options TJson options)) |}
              [ {| parser_name := Some "urlencoded";
                   supports := supports_pattern type_is "urlencoded";
                   parser_parse :=
                     parseUrlencodedBody
                       (urlencoded (effective_options TUrlencoded options)) |};
                {| parser_name := Some "text";
                   supports := supports_pattern type_is "text/*";
                   parser_parse :=
                     parseTextBody (text (effective_options TText options)) |} ]
              Hop Hmatch) as [Hout Hreq].
  - by split.
  - by eapply supports_pattern_accepts.
  - unfold result. rewrite Hout, Hreq. cbn [parser_parse].
    unfold parseJsonBody, parse.
    destruct (json (effective_options TJson options) req) as [[err|] r]; cbn.
    + by rewrite normalizeParsingError_idemp.
    + by rewrite value_over_recorded.
Qed.

Lemma X7_json_entry_end_to_end_witness :
  (Sample.load ∅ [] Sample.json_operation
     (Sample.request (Some "application/json") "{")).1
  = Thrown {| name := "SyntaxError"; message := "Unexpected end of JSON input";
              statusCode := Some 400 |}.
Proof.
  refine (proj1 (X7_json_entry_end_to_end Sample.type_is
            Sample.handle Sample.handle Sample.handle ∅ []
            Sample.json_operation
            (Sample.request (Some "application/json") "{")
            (Some [("application/json",
                    {| schema := Some Sample.object_schema |})])
            "application/json" {| schema := Some Sample.object_schema |}
            "application/json" "json" _ _ _ _)).
  - reflexivity.
  - exists [], []. split; [reflexivity | split; [constructor | reflexivity]].
  - constructor.
  - reflexivity.
Defined.

(** Property X8. End to end for the built-in urlencoded entry: it is reached
    when the externally supplied entries and the JSON entry decline, and on
    success the result is exactly
    [{value: request.body, coercionRequired: true, mediaType, schema}]; it is
    the only built-in entry that sets [coercionRequired]. An error of the
    middleware reaches the caller normalized once. *)
Theorem X8_urlencoded_entry_end_to_end
    (type_is : string → string → option string)
    (json urlencoded text : JsObj → BodyParserWithCallback)
    (options : JsObj) (ext : list BodyParser)
    (op : OperationObject) (req : Request) (content : option Content)
    (ty : string) (media : MediaTypeObject) (m a : string) :
  operation_requestBody op = Some (RequestBodyObject content) →
  first_match type_is (request_content_type req) (effective_content content)
    ty media m →
  Forall (λ q, supports q m = Returned false) ext →
  truthy_match (type_is m "json") = None →
  truthy_match (type_is m "urlencoded") = Some a →
  let this := new_RequestBodyParser type_is json urlencoded text options ext in
  let result := loadRequestBodyIfNeeded type_is this op req in
  result.1 =
    match urlencoded (effective_options TUrlencoded options) req with
    | (Some err, _) => Thrown (normalizeParsingError err)
    | (None, r) =>
        Returned {[ "value" := body r; "coercionRequired" := VBool true;
                    "mediaType" := VStr ty;
                    "schema" := default VUndefined (schema media) ]}
    end
  ∧ st_request result.2
    = (urlencoded (effective_options TUrlencoded options) req).2.
Proof.
  intros Hop Hmatch Hext Hjson Hurl this result.
  destruct (load_selected type_is this op req content ty media m
              (ext ++
               [ {| parser_name := Some "json";
                    supports := supports_pattern type_is "json";
                    parser_parse :=
                      parseJsonBody (json (effective_options TJson options)) |} ])
              {| parser_name := Some "urlencoded";
                 supports := supports_pattern type_is "urlencoded";
                 parser_parse :=
                   parseUrlencodedBody
                     (urlencoded (effective_options TUrlencoded options)) |}
              [ {| parser_name := Some "text";
                   supports := supports_pattern type_is "text/*";
                   parser_parse :=
                     parseTextBody (text (effective_options TText options)) |} ]
              Hop Hmatch) as [Hout Hreq].
  - split.
    + unfold this, new_RequestBodyParser, builtin_parsers. cbn [parsers].
      by rewrite <- app_assoc.
    + apply Forall_app. split; [done|]. constructor; [|constructor].
      by apply supports_pattern_declines.
  - by eapply supports_pattern_accepts.
  - unfold result. rewrite Hout, Hreq. cbn [parser_parse].
    unfold parseUrlencodedBody, parse.
    destruct (urlencoded (effective_options TUrlencoded options) req)
      as [[err|] r]; cbn.
    + by rewrite normalizeParsingError_idemp.
    + by rewrite coerced_value_over_recorded.
Qed.

Lemma X8_urlencoded_entry_end_to_end_witness :
  (Sample.load ∅ []
     {| operation_requestBody := Some (RequestBodyObject None) |}
     (Sample.request (Some "application/x-www-form-urlencoded") "a=1")).1
  = Returned {[ "value" := VStr "a=1"; "coercionRequired" := VBool true;
                "mediaType" := VStr "application/x-www-form-urlencoded";
                "schema" := Sample.object_schema ]}.
Proof.
  refine (proj1 (X8_urlencoded_entry_end_to_end Sample.type_is
            Sample.handle Sample.handle Sample.handle ∅ []
            {| operation_requestBody := Some (RequestBodyObject None) |}
            (Sample.request (Some "application/x-www-form-urlencoded") "a=1")
            None
            "application/x-www-form-urlencoded"
            {| schema := Some Sample.object_schema |}
            "application/x-www-form-urlencoded" "urlencoded" _ _ _ _ _)).
  - reflexivity.
  - exists [("application/json", {| schema := Some Sample.object_schema |})], [].
    split; [reflexivity | split; [repeat constructor | reflexivity]].
  - constructor.
  - reflexivity.
  - reflexivity.
Defined.

(** Property X9. End to end for the built-in text entry: it is the last
    resort, reached when the externally supplied entries, the JSON entry and
    the urlencoded entry all decline; on success the result is exactly
    [{value: request.body, mediaType, schema}], and an error of the
    middleware reaches the caller normalized once. *)
Theorem X9_text_entry_end_to_end
    (type_is : string → string → option string)
    (json urlencoded text : JsObj → BodyParserWithCallback)
    (options : JsObj) (ext : list BodyParser)
    (op : OperationObject) (req : Request) (content : option Content)
    (ty : string) (media : MediaTypeObject) (m a : string) :
  operation_requestBody op = Some (RequestBodyObject content) →
  first_match type_is (request_content_type req) (effective_content content)
    ty media m →
  Forall (λ q, supports q m = Returned false) ext →
  truthy_match (type_is m "json") = None →
  truthy_match (type_is m "urlencoded") = None →
  truthy_match (type_is m "text/*") = Some a →
  let this := new_RequestBodyParser type_is json urlencoded text options ext in
  let result := loadRequestBodyIfNeeded type_is this op req in
  result.1 =
    match text (effective_options TText options) req with
    | (Some err, _) => Thrown (normalizeParsingError err)
    | (None, r) =>
        Returned {[ "value" := body r; "mediaType" := VStr ty;
                    "schema" := default VUndefined (schema media) ]}
    end
  ∧ st_request result.2 = (text (effective_options TText options) req).2.
Proof.
  intros Hop Hmatch Hext Hjson Hurl Htext this result.
  destruct (load_selected type_is this op req content ty media m
              (ext ++
               [ {| parser_name := Some "json";
                    supports := supports_pattern type_is "json";
                    parser_parse :=
                      parseJsonBody (json (effective_options TJson options)) |};
                 {| parser_name := Some "urlencoded";
                    supports := supports_pattern type_is "urlencoded";
                    parser_parse :=
                      parseUrlencodedBody
                        (urlencoded (effective_options TUrlencoded options)) |} ])
              {| parser_name := Some "text";
                 supports := supports_pattern type_is "text/*";
                 parser_parse :=
                   parseTextBody (text (effective_options TText options)) |}
              [] Hop Hmatch) as [Hout Hreq].
  - split.
    + unfold this, new_RequestBodyParser, builtin_parsers. cbn [parsers].
      by rewrite <- app_assoc.
    + apply Forall_app. split; [done|].
      constructor; [|constructor; [|constructor]];
        by apply supports_pattern_declines.
  - by eapply supports_pattern_accepts.
  - unfold result. rewrite Hout, Hreq. cbn [parser_parse].
    unfold parseTextBody, parse.
    destruct (text (effective_options TText options) req) as [[err|] r]; cbn.
    + by rewrite normalizeParsingError_idemp.
    + by rewrite value_over_recorded.
Qed.

Lemma X9_text_entry_end_to_end_witness :
  (Sample.load ∅ []
     {| operation_requestBody :=
          Some (RequestBodyObject (Some [("text/*", {| schema := None |})])) |}
     (Sample.request (Some "text/plain") "hello")).1
  = Returned {[ "value" := VStr "hello"; "mediaType" := VStr "text/*";
                "schema" := VUndefined ]}.
Proof.
  refine (proj1 (X9_text_entry_end_to_end Sample.type_is
            Sample.handle Sample.handle Sample.handle ∅ []
            {| operation_requestBody :=
                 Some (RequestBodyObject
                         (Some [("text/*", {| schema := None |})])) |}
            (Sample.request (Some "text/plain") "hello")
            (Some [("text/*", {| schema := None |})])
            "text/*" {| schema := None |} "text/plain" "text/plain"
            _ _ _ _ _ _)).
  - reflexivity.
  - exists [], []. split; [reflexivity | split; [constructor | reflexivity]].
  - constructor.
  - reflexivity.
  - reflexivity.
  - reflexivity.
Defined.

(** Property X11. The exact sequence of calls of a call that selects an
    entry: the matcher is asked about the declared types up to the first
    match and about no later one; then the capability checks run from the
    head of the registry up to the selected entry, each about the matcher's
    answer [m]; then the selected entry parses, and nothing follows. The
    request afterwards is the one that entry left. *)
Theorem X11_call_sequence
    (type_is : string → string → option string) (this : RequestBodyParser)
    (op : OperationObject) (req : Request) (content : option Content)
    (cpre : Content) (ty : string) (media : MediaTypeObject) (cpost : Content)
    (m : string)
    (pre : list BodyParser) (p : BodyParser) (post : list BodyParser) :
  operation_requestBody op = Some (RequestBodyObject content) →
  effective_content content = cpre ++ (ty, media) :: cpost →
  Forall (λ ty', truthy_match (type_is (request_content_type req) ty') = None)
    (cpre.*1) →
  truthy_match (type_is (request_content_type req) ty) = Some m →
  first_candidate (parsers this) m pre p post →
  supports p m = Returned true →
  let result := loadRequestBodyIfNeeded type_is this op req in
  st_trace result.2 =
    (EvMatch (request_content_type req) <$> (cpre.*1 ++ [ty]))
      ++ supports_events m 0 (S (length pre))
      ++ [EvParse (length pre)]
  ∧ st_request result.2 = (parser_parse p req).2.
Proof.
  intros Hop Hc Hcpre Hm [Hps Hpre] Hsup. cbn zeta.
  rewrite (load_body_object type_is this op req content Hop), Hc.
  rewrite (match_content_first_state type_is _ _ _ _ _ _ _ m) by done.
  rewrite Hps, select_and_parse_selected by done. cbn zeta.
  cbn [st_request st_trace app].
  by destruct (parser_parse p req) as [[res|err] r].
Qed.

Lemma X11_call_sequence_witness :
  st_trace
    (Sample.load ∅ [Sample.custom_json]
       {| operation_requestBody :=
            Some (RequestBodyObject
                    (Some [("text/*", {| schema := None |});
                           ("application/json", {| schema := None |});
                           ("application/*", {| schema := None |})])) |}
       (Sample.request (Some "application/json") "{}")).2
  = [ EvMatch "application/json" "text/*";
      EvMatch "application/json" "application/json";
      EvSupports 0 "application/json";
      EvParse 0 ].
Proof.
  refine (proj1 (X11_call_sequence Sample.type_is
            (Sample.parser ∅ [Sample.custom_json])
            {| operation_requestBody :=
                 Some (RequestBodyObject
                         (Some [("text/*", {| schema := None |});
                                ("application/json", {| schema := None |});
                                ("application/*", {| schema := None |})])) |}
            (Sample.request (Some "application/json") "{}")
            (Some [("text/*", {| schema := None |});
                   ("application/json", {| schema := None |});
                   ("application/*", {| schema := None |})])
            [("text/*", {| schema := None |})]
            "application/json" {| schema := None |}
            [("application/*", {| schema := None |})]
            "application/json"
            [] Sample.custom_json
            (builtin_parsers Sample.type_is
               (Sample.handle (effective_options TJson ∅))
               (Sample.handle (effective_options TUrlencoded ∅))
               (Sample.handle (effective_options TText ∅)))
            _ _ _ _ _ _)).
  - reflexivity.
  - reflexivity.
  - repeat constructor.
  - reflexivity.
  - split; [reflexivity | constructor].
  - reflexivity.
Defined.

(** Property X14. When the options have no sub-object for the format (the
    key is absent, or [undefined] or [null]), the parser receives the shared
    options with the three format keys removed, over the defaults: the
    sub-objects of the other formats are dropped and every other shared
    option passes through. *)
Theorem X14_no_format_sub_object (t : ParserType) (options : JsObj) :
  get options (type_key t) = VUndefined ∨ get options (type_key t) = VNull →
  getParserOptions t options
    = delete "text" (delete "urlencoded" (delete "json" options))
  ∧ effective_options t options
    = delete "text" (delete "urlencoded" (delete "json" options))
        ∪ default_options t.
Proof.
  intros Hsub.
  assert (getParserOptions t options
          = delete "text" (delete "urlencoded" (delete "json" options))) as Hg.
  { unfold getParserOptions, assign. cbn [foldl].
    destruct Hsub as [-> | ->]; cbn [assign1]; by rewrite (right_id_L ∅ (∪)). }
  split; [done|]. unfold effective_options, assign. cbn [foldl assign1].
  by rewrite Hg.
Qed.

Lemma X14_no_format_sub_object_witness :
  effective_options TJson
    {[ "limit" := VStr "2mb"; "text" := VObj {[ "limit" := VStr "9mb" ]} ]}
  = {[ "type" := VStr "json"; "limit" := VStr "2mb" ]}.
Proof.
  etransitivity.
  - refine (proj2 (X14_no_format_sub_object TJson
              {[ "limit" := VStr "2mb";
                 "text" := VObj {[ "limit" := VStr "9mb" ]} ]} _)).
    left. reflexivity.
  - vm_compute. reflexivity.
Defined.
